(** * The in-memory bank ledger of [bank/bank.py]

    A shallow embedding of the [Bank] class, followed by the properties its
    specification states about it.

    - Python integers are [Z]; the ledger is modelled on integer amounts.
      [Module Decimal] gives the operations that move money on floats, to
      show where float amounts behave differently.
    - [str] is [string]; [str(n)] of an integer is stdpp's [pretty].
    - [self.accounts], a dict keyed by account number, is a [gmap string Account];
      an account (itself a dict with six fixed keys) is a record.
    - A method is a function from the ledger before the call to an [Outcome]:
      a returned value with the ledger after the call, a raised exception with
      the ledger as it was when the exception left the method, or a run that
      is still inside [generate_account_number]'s loop.
    - The clock and the random generator are read from a [World], one field per
      call site of [datetime] and [random] in a method. *)

From Stdlib Require Import ZArith Lia Ascii.
From Stdlib Require Import PrimFloat.
From stdpp Require Import gmap strings list fin_maps pretty.

Open Scope Z_scope.

(** ** Python values *)

(** [datetime.date] *)
Record date := Date { year : Z; month : Z; day : Z }.

(** [datetime.datetime] *)
Record datetime := DateTime {
  dt_date : date; hour : Z; minute : Z; second : Z; microsecond : Z
}.

(** [str(n)] *)
Definition str (n : Z) : string := pretty n.

Fixpoint zeros (n : nat) : string :=
  match n with
  | O => EmptyString
  | S n' => String "0"%char (zeros n')
  end.

(** [s.zfill(width)]: zeros are inserted after a leading sign. *)
Definition zfill (width : nat) (s : string) : string :=
  let fill := zeros (width - String.length s) in
  match s with
  | String c s' =>
      if (Ascii.eqb c "+" || Ascii.eqb c "-")%bool then String c (fill +:+ s')
      else fill +:+ s
  | EmptyString => fill
  end.

(** [(a1, a2) < (b1, b2)] on tuples of integers. *)
Definition tuple_lt (a b : Z * Z) : bool :=
  (a.1 <? b.1) || ((a.1 =? b.1) && (a.2 <? b.2)).

(** [t.strftime('%Y-%m-%d %H:%M:%S')], for the four-digit years a clock
    returns. *)
Definition strftime (t : datetime) : string :=
  zfill 4 (str (year (dt_date t))) +:+ "-" +:+
  zfill 2 (str (month (dt_date t))) +:+ "-" +:+
  zfill 2 (str (day (dt_date t))) +:+ " " +:+
  zfill 2 (str (hour t)) +:+ ":" +:+
  zfill 2 (str (minute t)) +:+ ":" +:+
  zfill 2 (str (second t)).

(** ** The exceptions *)

(** The seven classes the module declares, each with its message, and the two
    built-in ones the code can meet: [KeyError] from a subscript on a dict and
    [ValueError] from [strptime]. *)
Inductive Exception :=
| LimitError (msg : string)
| AccountNotFound (msg : string)
| InvalidPinError (msg : string)
| InvalidDateFormatError (msg : string)
| InvalidAgeError (msg : string)
| InsufficientBalanceError (msg : string)
| InvalidAmountError (msg : string)
| KeyError (key : string)
| ValueError (msg : string).

(** ** The data model *)

(** An entry of ["transaction_history"]. *)
Record Transaction := {
  txn_type : string;
  txn_amount : Z;
  txn_time : datetime;
  txn_note : string
}.

(** A value of [self.accounts]. *)
Record Account := {
  account_holder : string;
  balance : Z;
  transaction_history : list Transaction;
  creation_time : datetime;
  dob : date;
  pin : Z
}.

(** The [Bank] object: its only attribute is [accounts]. *)
Record Bank := { accounts : gmap string Account }.

Definition MAX_ACCOUNTS : Z := 10000.
Definition MIN_BALANCE : Z := 100.
Definition MIN_AGE : Z := 18.
Definition MAX_AGE : Z := 80.
Definition ACCOUNT_PREFIX : string := "230406".

(** [Bank()] *)
Definition Bank_init : Bank := {| accounts := ∅ |}.

(** What a method reads from outside the ledger during one call. *)
Record World := {
  today : date;               (* datetime.date.today() *)
  now : datetime;             (* datetime.datetime.now() *)
  randint_pin : Z;            (* random.randint(1000, 9999) *)
  randint_suffix : list Z     (* successive random.randint(0, 9999) *)
}.

(** ** Methods *)

Inductive Outcome (A : Type) :=
| Returned (a : A) (self : Bank)
| Raised (e : Exception) (self : Bank)
| Looping.
Arguments Returned {A} a self.
Arguments Raised {A} e self.
Arguments Looping {A}.

Definition Method (A : Type) : Type := Bank → Outcome A.

#[global] Instance Method_ret : MRet Method := λ A a self, Returned a self.

#[global] Instance Method_bind : MBind Method := λ A B f m self,
  match m self with
  | Returned a self' => f a self'
  | Raised e self' => Raised e self'
  | Looping => Looping
  end.

#[global] Instance Method_fmap : FMap Method := λ A B f m self,
  match m self with
  | Returned a self' => Returned (f a) self'
  | Raised e self' => Raised e self'
  | Looping => Looping
  end.

Definition raise {A} (e : Exception) : Method A := λ self, Raised e self.

(** [try: body except ValueError: handler] *)
Definition try_except_ValueError {A} (body handler : Method A) : Method A :=
  λ self,
    match body self with
    | Raised (ValueError _) self' => handler self'
    | o => o
    end.

(** The ledger an outcome leaves behind. *)
Definition bank_after {A} (o : Outcome A) : option Bank :=
  match o with
  | Returned _ self | Raised _ self => Some self
  | Looping => None
  end.

(** [len(self.accounts)] *)
Definition len_accounts : Method Z :=
  λ self, Returned (Z.of_nat (size (accounts self))) self.

(** [account in self.accounts] *)
Definition contains (account : string) : Method bool :=
  λ self, Returned (bool_decide (is_Some (accounts self !! account))) self.

(** [self.accounts[account]] as an expression *)
Definition getitem (account : string) : Method Account :=
  λ self,
    match accounts self !! account with
    | Some acc => Returned acc self
    | None => Raised (KeyError account) self
    end.

(** [self.accounts[account] = acc] *)
Definition setitem (account : string) (acc : Account) : Method unit :=
  λ self, Returned tt {| accounts := <[account := acc]> (accounts self) |}.

Definition with_balance (b : Z) (acc : Account) : Account :=
  {| account_holder := account_holder acc;
     balance := b;
     transaction_history := transaction_history acc;
     creation_time := creation_time acc;
     dob := dob acc;
     pin := pin acc |}.

Definition with_history (h : list Transaction) (acc : Account) : Account :=
  {| account_holder := account_holder acc;
     balance := balance acc;
     transaction_history := h;
     creation_time := creation_time acc;
     dob := dob acc;
     pin := pin acc |}.

(** [self.accounts[account]["balance"] += delta] *)
Definition add_balance (account : string) (delta : Z) : Method unit :=
  acc ← getitem account;
  setitem account (with_balance (balance acc + delta) acc).

(** [self.accounts[account]["balance"] -= delta] *)
Definition sub_balance (account : string) (delta : Z) : Method unit :=
  acc ← getitem account;
  setitem account (with_balance (balance acc - delta) acc).

(** [generate_account_number]: the loop runs once per draw until a draw gives
    a number that is not a key of [self.accounts]. *)
Fixpoint generate_account_number (draws : list Z) : Method string :=
  match draws with
  | [] => λ _, Looping
  | r :: draws' =>
      let suffix := zfill 4 (str r) in
      let account_number := ACCOUNT_PREFIX +:+ suffix in
      taken ← contains account_number;
      if negb taken then mret account_number
      else generate_account_number draws'
  end.

Definition generate_pin (w : World) : Method Z := mret (randint_pin w).

Definition transaction_log (account type_of_txn : string) (amount : Z)
    (time : datetime) (note : string) : Method unit :=
  let transaction :=
    {| txn_type := type_of_txn; txn_amount := amount;
       txn_time := time; txn_note := note |} in
  acc ← getitem account;
  setitem account (with_history (transaction_history acc ++ [transaction]) acc).

Definition validate_pin (account : string) (pin_ : Z) : Method unit :=
  acc ← getitem account;
  if bool_decide (pin_ ≠ pin acc) then raise (InvalidPinError "Invalid Pin")
  else mret tt.

Definition validate_account (account : string) : Method unit :=
  present ← contains account;
  if negb present then raise (AccountNotFound "Account not found")
  else mret tt.

Definition validate_amount (amount : Z) : Method unit :=
  if amount <=? 0 then
    raise (InvalidAmountError
      "Amount for deposit/withdrawal/transfer should be greater than 0")
  else mret tt.

Definition validate_balance (account : string) (amount : Z) : Method unit :=
  acc ← getitem account;
  if balance acc - amount <? MIN_BALANCE then
    raise (InsufficientBalanceError
      ("Balance after withdrawal/transfer should be more than ₹" +:+ str MIN_BALANCE))
  else mret tt.

(** The age expression of [account_creation]. *)
Definition age_on (today dob_date : date) : Z :=
  year today - year dob_date
  - Z.b2z (tuple_lt (month today, day today) (month dob_date, day dob_date)).

(** ** [strptime]

    [datetime.datetime.strptime] belongs to the Python library, so the ledger
    is defined over any function [strptime : string → option date] standing
    for [strptime(dob, "%Y-%m-%d").date()], with [None] for a [ValueError].
    [strptime_ymd] is the instance used to run the ledger on examples: the
    behaviour of CPython's [_strptime] on this format for ASCII input. *)

Definition digit (c : ascii) : option Z :=
  let n := Z.of_N (N_of_ascii c) in
  if (48 <=? n) && (n <=? 57) then Some (n - 48) else None.

Definition digit_in (lo hi : Z) (c : ascii) : option Z :=
  d ← digit c; if (lo <=? d) && (d <=? hi) then Some d else None.

(** [\d\d\d\d] *)
Definition parse_Y (s : string) : option (Z * string) :=
  match s with
  | String c1 (String c2 (String c3 (String c4 rest))) =>
      d1 ← digit c1; d2 ← digit c2; d3 ← digit c3; d4 ← digit c4;
      Some (1000 * d1 + 100 * d2 + 10 * d3 + d4, rest)
  | _ => None
  end.

(** Two characters [c1 c2] with [c1] in [lo1..hi1] and [c2] in [lo2..hi2]. *)
Definition two_digits (lo1 hi1 lo2 hi2 : Z) (s : string) : option (Z * string) :=
  match s with
  | String c1 (String c2 rest) =>
      d1 ← digit_in lo1 hi1 c1; d2 ← digit_in lo2 hi2 c2;
      Some (10 * d1 + d2, rest)
  | _ => None
  end.

Definition one_digit (lo hi : Z) (s : string) : option (Z * string) :=
  match s with
  | String c rest => d ← digit_in lo hi c; Some (d, rest)
  | _ => None
  end.

Definition or_else {A} (a b : option A) : option A :=
  match a with Some _ => a | None => b end.

(** [1[0-2]|0[1-9]|[1-9]] *)
Definition parse_m (s : string) : option (Z * string) :=
  or_else (two_digits 1 1 0 2 s)
    (or_else (two_digits 0 0 1 9 s) (one_digit 1 9 s)).

(** [3[0-1]|[1-2]\d|0[1-9]|[1-9]| [1-9]] *)
Definition parse_d (s : string) : option (Z * string) :=
  or_else (two_digits 3 3 0 1 s)
    (or_else (two_digits 1 2 0 9 s)
      (or_else (two_digits 0 0 1 9 s)
        (or_else (one_digit 1 9 s)
          match s with
          | String " " rest => one_digit 1 9 rest
          | _ => None
          end))).

Definition expect_dash (s : string) : option string :=
  match s with
  | String "-" rest => Some rest
  | _ => None
  end.

Definition is_leap (y : Z) : bool :=
  (y mod 4 =? 0) && (negb (y mod 100 =? 0) || (y mod 400 =? 0)).

Definition days_in_month (y m : Z) : Z :=
  if m =? 2 then (if is_leap y then 29 else 28)
  else if (m =? 4) || (m =? 6) || (m =? 9) || (m =? 11) then 30
  else 31.

(** The range checks of the [date] constructor. *)
Definition make_date (y m d : Z) : option date :=
  if (1 <=? y) && (y <=? 9999) && (1 <=? m) && (m <=? 12)
     && (1 <=? d) && (d <=? days_in_month y m)
  then Some (Date y m d) else None.

Definition strptime_ymd (s : string) : option date :=
  '(y, s1) ← parse_Y s;
  s2 ← expect_dash s1;
  '(m, s3) ← parse_m s2;
  s4 ← expect_dash s3;
  '(d, s5) ← parse_d s4;
  match s5 with
  | EmptyString => make_date y m d
  | _ => None
  end.

(** ** Returned values *)

(** The dict [account_creation] returns. *)
Record AccountCreated := {
  created_account_number : string;
  created_pin : Z;
  created_message : string
}.

(** The dict with keys ["message"] and ["balance"]. *)
Record BalanceReply := {
  reply_message : string;
  reply_balance : Z
}.

(** The dict [transfer] returns. *)
Record TransferReply := {
  transfer_message : string;
  balance_from : Z;
  balance_to : Z
}.

(** A cell of a [PrettyTable] row. *)
Inductive Cell :=
| CStr (s : string)
| CDate (d : date).

Record PrettyTable := {
  field_names : list string;
  rows : list (list Cell)
}.

Definition PrettyTable_new : PrettyTable := {| field_names := []; rows := [] |}.

Definition set_field_names (names : list string) (t : PrettyTable) : PrettyTable :=
  {| field_names := names; rows := rows t |}.

Definition add_row (row : list Cell) (t : PrettyTable) : PrettyTable :=
  {| field_names := field_names t; rows := rows t ++ [row] |}.

(** ** The public operations *)

Section Ledger.

Variable strptime : string → option date.

(** [datetime.datetime.strptime(dob, "%Y-%m-%d").date()] *)
Definition strptime_date (dob : string) : Method date :=
  match strptime dob with
  | Some d => mret d
  | None => raise (ValueError "time data does not match format")
  end.

Definition account_creation (w : World) (name : string) (balance : Z)
    (dob : string) (pin : option Z) : Method AccountCreated :=
  n ← len_accounts;
  if n =? MAX_ACCOUNTS then
    raise (LimitError
      "Total account limit reached. Unable to create a new account.")
  else
  try_except_ValueError
    (dob_date ← strptime_date dob;
     let today := today w in
     let age := age_on today dob_date in
     if negb ((MIN_AGE <=? age) && (age <=? MAX_AGE)) then
       raise (InvalidAgeError
         ("Sorry account creation is only allowed between the ages of "
          +:+ str MIN_AGE +:+ " and " +:+ str MAX_AGE))
     else
     if balance <? MIN_BALANCE then
       raise (InvalidAmountError
         ("Opening balance must be at least ₹" +:+ str MIN_BALANCE +:+ "."))
     else
     pin ← match pin with
           | None => generate_pin w
           | Some p =>
               if negb ((1000 <=? p) && (p <=? 9999)) then generate_pin w
               else mret p
           end;
     account_number ← generate_account_number (randint_suffix w);
     let created_at := now w in
     setitem account_number
       {| account_holder := name;
          balance := balance;
          transaction_history :=
            [ {| txn_type := "Deposit";
                 txn_amount := balance;
                 txn_time := created_at;
                 txn_note := "Opening balance" |} ];
          creation_time := created_at;
          dob := dob_date;
          pin := pin |};;
     mret {| created_account_number := account_number;
             created_pin := pin;
             created_message := "✅ Account created successfully!" |})
    (raise (InvalidDateFormatError
      "Invalid date format. Please use YYYY-MM-DD.")).

Definition deposit (w : World) (account : string) (pin amount : Z)
    : Method BalanceReply :=
  validate_account account;;
  validate_pin account pin;;
  validate_amount amount;;
  add_balance account amount;;
  let time := now w in
  transaction_log account "Deposit" amount time "Cash deposit";;
  acc ← getitem account;
  mret {| reply_message :=
            "✅ ₹" +:+ str amount +:+ " has been successfully deposited.";
          reply_balance := balance acc |}.

Definition withdrawal (w : World) (account : string) (pin amount : Z)
    : Method BalanceReply :=
  validate_account account;;
  validate_pin account pin;;
  validate_amount amount;;
  validate_balance account amount;;
  sub_balance account amount;;
  let time := now w in
  transaction_log account "Withdrawal" amount time "Cash withdrawal";;
  acc ← getitem account;
  mret {| reply_message :=
            "✅ ₹" +:+ str amount +:+ " has been successfully withdrawn.";
          reply_balance := balance acc |}.

Definition transfer (w : World) (account1 account2 : string) (pin amount : Z)
    : Method TransferReply :=
  validate_account account1;;
  validate_account account2;;
  validate_pin account1 pin;;
  validate_amount amount;;
  validate_balance account1 amount;;
  sub_balance account1 amount;;
  add_balance account2 amount;;
  let time := now w in
  transaction_log account1 ("Transfer to " +:+ account2) amount time
    "Cash transfer";;
  transaction_log account2 ("Transfer from " +:+ account1) amount time
    "Cash transfer";;
  acc1 ← getitem account1;
  acc2 ← getitem account2;
  mret {| transfer_message :=
            "✅ ₹" +:+ str amount +:+ " has been successfully transferred from "
            +:+ account1 +:+ " to " +:+ account2 +:+ ".";
          balance_from := balance acc1;
          balance_to := balance acc2 |}.

Definition display_account_info (account : string) (pin : Z)
    : Method PrettyTable :=
  validate_account account;;
  validate_pin account pin;;
  acc ← getitem account;
  let table := PrettyTable_new in
  let table := set_field_names ["Field"; "Value"] table in
  let table := add_row [CStr "Account Number"; CStr account] table in
  let table :=
    add_row [CStr "Account Holder"; CStr (account_holder acc)] table in
  let table :=
    add_row [CStr "Balance"; CStr ("₹" +:+ str (balance acc))] table in
  let table := add_row [CStr "Date of Birth"; CDate (dob acc)] table in
  mret table.

Definition display_balance (account : string) (pin : Z)
    : Method BalanceReply :=
  validate_account account;;
  validate_pin account pin;;
  acc ← getitem account;
  acc' ← getitem account;
  mret {| reply_balance := balance acc;
          reply_message :=
            "💰 Your current balance is: ₹" +:+ str (balance acc') |}.

Definition display_transaction_history (account : string) (pin : Z)
    : Method PrettyTable :=
  validate_account account;;
  validate_pin account pin;;
  let table := PrettyTable_new in
  let table :=
    set_field_names ["Type"; "Amount (₹)"; "Time"; "Note"] table in
  acc ← getitem account;
  let table :=
    foldl (λ table transaction,
             add_row [ CStr (txn_type transaction);
                       CStr (str (txn_amount transaction));
                       CStr (strftime (txn_time transaction));
                       CStr (txn_note transaction) ] table)
          table (transaction_history acc) in
  mret table.

(** A call of a public operation, and what it gives back. *)
Inductive Call :=
| call_account_creation (name : string) (balance : Z) (dob : string)
    (pin : option Z)
| call_deposit (account : string) (pin amount : Z)
| call_withdrawal (account : string) (pin amount : Z)
| call_transfer (account1 account2 : string) (pin amount : Z)
| call_display_account_info (account : string) (pin : Z)
| call_display_balance (account : string) (pin : Z)
| call_display_transaction_history (account : string) (pin : Z).

Inductive Reply :=
| reply_created (r : AccountCreated)
| reply_balance_dict (r : BalanceReply)
| reply_transfer (r : TransferReply)
| reply_table (t : PrettyTable).

Definition run (w : World) (c : Call) : Method Reply :=
  match c with
  | call_account_creation name balance dob pin =>
      reply_created <$> account_creation w name balance dob pin
  | call_deposit account pin amount =>
      reply_balance_dict <$> deposit w account pin amount
  | call_withdrawal account pin amount =>
      reply_balance_dict <$> withdrawal w account pin amount
  | call_transfer account1 account2 pin amount =>
      reply_transfer <$> transfer w account1 account2 pin amount
  | call_display_account_info account pin =>
      reply_table <$> display_account_info account pin
  | call_display_balance account pin =>
      reply_balance_dict <$> display_balance account pin
  | call_display_transaction_history account pin =>
      reply_table <$> display_transaction_history account pin
  end.

(** The ledgers a program can reach from [Bank()] by calls of the public
    operations, whether they return or raise. *)
Inductive reachable : Bank → Prop :=
| reachable_init : reachable Bank_init
| reachable_call w c self self' :
    reachable self →
    bank_after (run w c self) = Some self' →
    reachable self'.

End Ledger.

(** ** Summaries used in the proofs *)

Definition deposit_txn (w : World) (amount : Z) : Transaction :=
  {| txn_type := "Deposit"; txn_amount := amount;
     txn_time := now w; txn_note := "Cash deposit" |}.

Definition withdrawal_txn (w : World) (amount : Z) : Transaction :=
  {| txn_type := "Withdrawal"; txn_amount := amount;
     txn_time := now w; txn_note := "Cash withdrawal" |}.

Definition transfer_out_txn (w : World) (account2 : string) (amount : Z)
    : Transaction :=
  {| txn_type := "Transfer to " +:+ account2; txn_amount := amount;
     txn_time := now w; txn_note := "Cash transfer" |}.

Definition transfer_in_txn (w : World) (account1 : string) (amount : Z)
    : Transaction :=
  {| txn_type := "Transfer from " +:+ account1; txn_amount := amount;
     txn_time := now w; txn_note := "Cash transfer" |}.

(** The statements of [transfer] after its five validations. *)
Definition transfer_commit (w : World) (account1 account2 : string)
    (amount : Z) : Method TransferReply :=
  sub_balance account1 amount;;
  add_balance account2 amount;;
  let time := now w in
  transaction_log account1 ("Transfer to " +:+ account2) amount time
    "Cash transfer";;
  transaction_log account2 ("Transfer from " +:+ account1) amount time
    "Cash transfer";;
  acc1 ← getitem account1;
  acc2 ← getitem account2;
  mret {| transfer_message :=
            "✅ ₹" +:+ str amount +:+ " has been successfully transferred from "
            +:+ account1 +:+ " to " +:+ account2 +:+ ".";
          balance_from := balance acc1;
          balance_to := balance acc2 |}.

(** The number [generate_account_number] settles on: the first draw whose
    number is not yet a key, if the draws contain one. *)
Fixpoint first_free (m : gmap string Account) (draws : list Z)
    : option string :=
  match draws with
  | [] => None
  | r :: draws' =>
      let account_number := ACCOUNT_PREFIX +:+ zfill 4 (str r) in
      match m !! account_number with
      | None => Some account_number
      | Some _ => first_free m draws'
      end
  end.

(** The pin [account_creation] stores and returns. *)
Definition effective_pin (w : World) (pin : option Z) : Z :=
  match pin with
  | None => randint_pin w
  | Some p => if (1000 <=? p) && (p <=? 9999) then p else randint_pin w
  end.

Definition opening_account (w : World) (name : string) (balance : Z)
    (dob_date : date) (pin : option Z) : Account :=
  {| account_holder := name;
     balance := balance;
     transaction_history :=
       [ {| txn_type := "Deposit"; txn_amount := balance;
            txn_time := now w; txn_note := "Opening balance" |} ];
     creation_time := now w;
     dob := dob_date;
     pin := effective_pin w pin |}.

(** ** Vocabulary of the specification *)

(** The exception a call ends with, if it ends with one. *)
Definition raised {A} (o : Outcome A) : option Exception :=
  match o with
  | Raised e _ => Some e
  | _ => None
  end.

(** The exception classes [bank.py] declares, as opposed to the built-in
    ones. *)
Definition declared (e : Exception) : bool :=
  match e with
  | KeyError _ | ValueError _ => false
  | _ => true
  end.

(** The four validations, in the order the specification lists them. *)
Inductive Check := Existence | PinMatch | AmountPositive | BalanceSufficient.

Definition error_of_check (c : Check) : Exception :=
  match c with
  | Existence => AccountNotFound "Account not found"
  | PinMatch => InvalidPinError "Invalid Pin"
  | AmountPositive =>
      InvalidAmountError
        "Amount for deposit/withdrawal/transfer should be greater than 0"
  | BalanceSufficient =>
      InsufficientBalanceError
        ("Balance after withdrawal/transfer should be more than ₹"
         +:+ str MIN_BALANCE)
  end.

(** The earliest check, in that order, that does not pass. *)
Definition first_violation (known pin_ok amount_ok balance_ok : bool)
    : option Check :=
  if negb known then Some Existence
  else if negb pin_ok then Some PinMatch
  else if negb amount_ok then Some AmountPositive
  else if negb balance_ok then Some BalanceSufficient
  else None.

Definition known (self : Bank) (account : string) : bool :=
  bool_decide (is_Some (accounts self !! account)).

Definition pin_matches (self : Bank) (account : string) (p : Z) : bool :=
  match accounts self !! account with
  | Some acc => bool_decide (p = pin acc)
  | None => false
  end.

Definition balance_suffices (self : Bank) (account : string) (amount : Z)
    : bool :=
  match accounts self !! account with
  | Some acc => MIN_BALANCE <=? balance acc - amount
  | None => false
  end.

(** [(m1, d1)] comes earlier in the year than [(m2, d2)]. *)
Definition precedes (a b : Z * Z) : Prop :=
  a.1 < b.1 ∨ (a.1 = b.1 ∧ a.2 < b.2).

(** The four kinds of transaction of the data model. *)
Inductive TxnKind :=
| KindDeposit
| KindWithdrawal
| KindTransferOut
| KindTransferIn.

(** [s.startswith(p)] *)
Fixpoint startswith (s p : string) {struct p} : bool :=
  match p with
  | EmptyString => true
  | String c p' =>
      match s with
      | String d s' => Ascii.eqb c d && startswith s' p'
      | EmptyString => false
      end
  end.

(** The kind a ["type"] string stands for. *)
Definition txn_kind (type_of_txn : string) : option TxnKind :=
  if String.eqb type_of_txn "Deposit" then Some KindDeposit
  else if String.eqb type_of_txn "Withdrawal" then Some KindWithdrawal
  else if startswith type_of_txn "Transfer to " then Some KindTransferOut
  else if startswith type_of_txn "Transfer from " then Some KindTransferIn
  else None.

Definition well_formed_txn (t : Transaction) : Prop :=
  is_Some (txn_kind (txn_type t)) ∧ 0 < txn_amount t.

(** Every account of [self'] that had at least [MIN_BALANCE] in [self], or
    was not in [self], has at least [MIN_BALANCE] in [self']. *)
Definition keeps_floor (self self' : Bank) : Prop :=
  ∀ account acc',
    accounts self' !! account = Some acc' →
    (∀ acc, accounts self !! account = Some acc → MIN_BALANCE ≤ balance acc) →
    MIN_BALANCE ≤ balance acc'.

(** Every record of every history of the ledger is well formed. *)
Definition histories_well_formed (self : Bank) : Prop :=
  ∀ account acc t,
    accounts self !! account = Some acc →
    t ∈ transaction_history acc →
    well_formed_txn t.

(** What the specification says of a successful transfer of [A] from [X]
    (record [accX] before) to [Y] (record [accY] before), on the ledger
    [self'] it leaves. *)
Definition transfer_done (X Y : string) (A : Z) (accX accY : Account)
    (self' : Bank) : Prop :=
  ∃ accX' accY' tx ty,
    accounts self' !! X = Some accX' ∧
    accounts self' !! Y = Some accY' ∧
    balance accX' = balance accX - A ∧
    balance accY' = balance accY + A ∧
    transaction_history accX' = transaction_history accX ++ [tx] ∧
    transaction_history accY' = transaction_history accY ++ [ty] ∧
    txn_type tx = "Transfer to " +:+ Y ∧
    txn_type ty = "Transfer from " +:+ X ∧
    txn_time tx = txn_time ty.

(** ** A small ledger to run the operations on *)

Definition demo_world : World :=
  {| today := Date 2026 11 4;
     now := DateTime (Date 2026 11 4) 9 30 0 0;
     randint_pin := 4321;
     randint_suffix := [7; 7; 42] |}.

Definition later_world : World :=
  {| today := Date 2026 11 5;
     now := DateTime (Date 2026 11 5) 17 0 0 0;
     randint_pin := 5678;
     randint_suffix := [99] |}.

Definition alice : string := "2304060007".
Definition bob : string := "2304060042".

(** The ledger after the first call of [bank_output.py]. *)
Definition alice_bank : Bank :=
  default Bank_init
    (bank_after
       (account_creation strptime_ymd demo_world "Alice" 500 "1995-05-12"
          (Some 1234) Bank_init)).

(** The ledger after its second call. *)
Definition demo_bank : Bank :=
  default Bank_init
    (bank_after
       (account_creation strptime_ymd demo_world "Bob" 1000 "1988-09-23"
          None alice_bank)).

(** What the first call returns. *)
Definition alice_created : AccountCreated :=
  {| created_account_number := alice;
     created_pin := 1234;
     created_message := "✅ Account created successfully!" |}.

Definition alice_account : Account :=
  opening_account demo_world "Alice" 500 (Date 1995 5 12) (Some 1234).

Definition bob_account : Account :=
  opening_account demo_world "Bob" 1000 (Date 1988 9 23) None.

(** ** Measures and shapes used by the further properties *)

(** The number the loop of [generate_account_number] builds from a draw. *)
Definition account_number_of (r : Z) : string :=
  ACCOUNT_PREFIX +:+ zfill 4 (str r).

(** The draw an account number was built from: its characters 6 to 9 read
    as four decimal digits. *)
Definition draw_of (account_number : string) : option Z :=
  fst <$> parse_Y (String.substring 6 4 account_number).

(** The prefix followed by four more characters. *)
Definition well_formed_account_number (s : string) : Prop :=
  startswith s ACCOUNT_PREFIX = true ∧ String.length s = 10%nat.

(** What [random.randint] promises of the draws of a call. *)
Definition within_contract (w : World) : Prop :=
  1000 ≤ randint_pin w ≤ 9999 ∧
  Forall (λ r, 0 ≤ r ≤ 9999) (randint_suffix w).

(** The sum of the balances of a ledger. *)
Definition total_balance (self : Bank) : Z :=
  map_fold (λ _ acc total, balance acc + total) 0 (accounts self).

(** What a record contributes to its account's balance. *)
Definition signed_amount (t : Transaction) : Z :=
  match txn_kind (txn_type t) with
  | Some KindDeposit | Some KindTransferIn => txn_amount t
  | Some KindWithdrawal | Some KindTransferOut => - txn_amount t
  | None => 0
  end.

Definition history_net (h : list Transaction) : Z :=
  foldr (λ t net, signed_amount t + net) 0 h.

(** The row [display_transaction_history] adds for a record. *)
Definition row_of (transaction : Transaction) : list Cell :=
  [ CStr (txn_type transaction);
    CStr (str (txn_amount transaction));
    CStr (strftime (txn_time transaction));
    CStr (txn_note transaction) ].

(** The checks of [account_creation], in the order of its statements, and
    the exception of the first that fails. *)
Definition creation_violation (full parsed age_ok balance_ok : bool)
    : option Exception :=
  if full then
    Some (LimitError
            "Total account limit reached. Unable to create a new account.")
  else if negb parsed then
    Some (InvalidDateFormatError "Invalid date format. Please use YYYY-MM-DD.")
  else if negb age_ok then
    Some (InvalidAgeError
            ("Sorry account creation is only allowed between the ages of "
             +:+ str MIN_AGE +:+ " and " +:+ str MAX_AGE))
  else if negb balance_ok then
    Some (InvalidAmountError
            ("Opening balance must be at least ₹" +:+ str MIN_BALANCE +:+ "."))
  else None.

(** The fields of an account no operation assigns after creation agree, and
    the history of [acc'] starts with that of [acc]. *)
Definition extends (acc acc' : Account) : Prop :=
  account_holder acc' = account_holder acc ∧
  dob acc' = dob acc ∧
  pin acc' = pin acc ∧
  creation_time acc' = creation_time acc ∧
  ∃ added, transaction_history acc' = transaction_history acc ++ added.

(** The accounts a call names. *)
Definition named_accounts (c : Call) : list string :=
  match c with
  | call_account_creation _ _ _ _ => []
  | call_deposit account _ _ | call_withdrawal account _ _
  | call_display_account_info account _ | call_display_balance account _
  | call_display_transaction_history account _ => [account]
  | call_transfer account1 account2 _ _ => [account1; account2]
  end.

(** [bank_output.py]: the two creations and the table it prints, with the
    world of each creation. *)
Definition bank_output (strptime : string → option date) (w1 w2 : World)
    : Method PrettyTable :=
  acc1 ← account_creation strptime w1 "Alice" 500 "1995-05-12" (Some 1234);
  acc2 ← account_creation strptime w2 "Bob" 1000 "1988-09-23" None;
  display_transaction_history (created_account_number acc1) (created_pin acc1).

(** The three facts checked of the number of a draw. *)
Definition account_number_checks (r : Z) : bool :=
  (String.length (account_number_of r) =? 10)%nat
  && startswith (account_number_of r) ACCOUNT_PREFIX
  && match draw_of (account_number_of r) with
     | Some r' => r' =? r
     | None => false
     end.

(** An account after its balance has moved by [delta] and [added] has been
    appended to its history. *)
Definition post (delta : Z) (added : list Transaction) (acc : Account)
    : Account :=
  with_history (transaction_history acc ++ added)
    (with_balance (balance acc + delta) acc).

(** The two ways the operations change a ledger, in a call that reads [w]:
    a new account under a fresh number, opened with at least [MIN_BALANCE]
    while the ledger is not full; and an existing account whose balance moves
    by the net amount of the well-formed records appended to its history,
    never below [MIN_BALANCE] when it goes down. *)
Inductive update (w : World) (self : Bank) : Bank → Prop :=
| update_open account_number name B dob_date caller_pin :
    accounts self !! account_number = None →
    Z.of_nat (size (accounts self)) ≠ MAX_ACCOUNTS →
    MIN_BALANCE ≤ B →
    (∃ r, r ∈ randint_suffix w ∧ account_number = account_number_of r) →
    update w self
      {| accounts :=
           <[account_number := opening_account w name B dob_date caller_pin]>
             (accounts self) |}
| update_post account acc delta added :
    accounts self !! account = Some acc →
    history_net added = delta →
    Forall well_formed_txn added →
    (delta < 0 → MIN_BALANCE ≤ balance acc + delta) →
    update w self
      {| accounts := <[account := post delta added acc]> (accounts self) |}.


(** Every balance is at least [MIN_BALANCE]. *)
Definition floored (self : Bank) : Prop :=
  ∀ k acc, accounts self !! k = Some acc → MIN_BALANCE ≤ balance acc.

(** Every key is a well-formed account number and every pin has four
    digits. *)
Definition shaped (self : Bank) : Prop :=
  ∀ k acc, accounts self !! k = Some acc →
           well_formed_account_number k ∧ 1000 ≤ pin acc ≤ 9999.

(** By how much a call that returns moves the sum of the balances. *)
Definition total_change (c : Call) : Z :=
  match c with
  | call_account_creation _ balance _ _ => balance
  | call_deposit _ _ amount => amount
  | call_withdrawal _ _ amount => - amount
  | _ => 0
  end.

(** Every history starts with the opening record of its account: a Deposit
    of at least [MIN_BALANCE], noted "Opening balance", at the creation
    time. *)
Definition opened (self : Bank) : Prop :=
  ∀ k acc, accounts self !! k = Some acc →
    ∃ B later,
      MIN_BALANCE ≤ B ∧
      transaction_history acc =
        {| txn_type := "Deposit"; txn_amount := B;
           txn_time := creation_time acc; txn_note := "Opening balance" |}
        :: later.

(** ** The money operations on floats

    [bank.py] checks no types, so the amounts and balances it is given may be
    Python floats (binary64) as well as ints. This module is the part of the
    ledger that moves money, with every balance and amount a float. The
    comparisons against the ints [0] and [MIN_BALANCE] are comparisons
    against the floats equal to them; an f-string is kept as its parts, the
    number unformatted. *)
Module Decimal.

Record Transaction := {
  txn_type : string;
  txn_amount : float;
  txn_time : datetime;
  txn_note : string
}.

Record Account := {
  account_holder : string;
  balance : float;
  transaction_history : list Transaction;
  creation_time : datetime;
  dob : date;
  pin : Z
}.

Record Bank := { accounts : gmap string Account }.

(** The int [MIN_BALANCE] (100), as the float a float is compared with. *)
Definition MIN_BALANCE_as_float : float := 100%float.

Inductive Outcome (A : Type) :=
| Returned (a : A) (self : Bank)
| Raised (e : Exception) (self : Bank).
Arguments Returned {A} a self.
Arguments Raised {A} e self.

Definition Method (A : Type) : Type := Bank → Outcome A.

#[global] Instance Method_ret : MRet Method := λ A a self, Returned a self.

#[global] Instance Method_bind : MBind Method := λ A B f m self,
  match m self with
  | Returned a self' => f a self'
  | Raised e self' => Raised e self'
  end.

Definition raise {A} (e : Exception) : Method A := λ self, Raised e self.

Definition contains (account : string) : Method bool :=
  λ self, Returned (bool_decide (is_Some (accounts self !! account))) self.

Definition getitem (account : string) : Method Account :=
  λ self,
    match accounts self !! account with
    | Some acc => Returned acc self
    | None => Raised (KeyError account) self
    end.

Definition setitem (account : string) (acc : Account) : Method unit :=
  λ self, Returned tt {| accounts := <[account := acc]> (accounts self) |}.

Definition with_balance (b : float) (acc : Account) : Account :=
  {| account_holder := account_holder acc;
     balance := b;
     transaction_history := transaction_history acc;
     creation_time := creation_time acc;
     dob := dob acc;
     pin := pin acc |}.

Definition with_history (h : list Transaction) (acc : Account) : Account :=
  {| account_holder := account_holder acc;
     balance := balance acc;
     transaction_history := h;
     creation_time := creation_time acc;
     dob := dob acc;
     pin := pin acc |}.

(** [self.accounts[account]["balance"] += delta] *)
Definition add_balance (account : string) (delta : float) : Method unit :=
  acc ← getitem account;
  setitem account (with_balance (PrimFloat.add (balance acc) delta) acc).

(** [self.accounts[account]["balance"] -= delta] *)
Definition sub_balance (account : string) (delta : float) : Method unit :=
  acc ← getitem account;
  setitem account (with_balance (PrimFloat.sub (balance acc) delta) acc).

Definition transaction_log (account type_of_txn : string) (amount : float)
    (time : datetime) (note : string) : Method unit :=
  let transaction :=
    {| txn_type := type_of_txn; txn_amount := amount;
       txn_time := time; txn_note := note |} in
  acc ← getitem account;
  setitem account (with_history (transaction_history acc ++ [transaction]) acc).

Definition validate_pin (account : string) (pin_ : Z) : Method unit :=
  acc ← getitem account;
  if bool_decide (pin_ ≠ pin acc) then raise (InvalidPinError "Invalid Pin")
  else mret tt.

Definition validate_account (account : string) : Method unit :=
  present ← contains account;
  if negb present then raise (AccountNotFound "Account not found")
  else mret tt.

Definition validate_amount (amount : float) : Method unit :=
  if PrimFloat.leb amount 0%float then
    raise (InvalidAmountError
      "Amount for deposit/withdrawal/transfer should be greater than 0")
  else mret tt.

Definition validate_balance (account : string) (amount : float) : Method unit :=
  acc ← getitem account;
  if PrimFloat.ltb (PrimFloat.sub (balance acc) amount) MIN_BALANCE_as_float
  then
    raise (InsufficientBalanceError
      ("Balance after withdrawal/transfer should be more than ₹"
       +:+ str MIN_BALANCE))
  else mret tt.

(** A part of an f-string. *)
Inductive Part :=
| Text (s : string)
| Number (f : float).

Record BalanceReply := {
  reply_message : list Part;
  reply_balance : float
}.

Record TransferReply := {
  transfer_message : list Part;
  balance_from : float;
  balance_to : float
}.

Definition deposit (w : World) (account : string) (pin : Z) (amount : float)
    : Method BalanceReply :=
  validate_account account;;
  validate_pin account pin;;
  validate_amount amount;;
  add_balance account amount;;
  let time := now w in
  transaction_log account "Deposit" amount time "Cash deposit";;
  acc ← getitem account;
  mret {| reply_message :=
            [Text "✅ ₹"; Number amount;
             Text " has been successfully deposited."];
          reply_balance := balance acc |}.

Definition withdrawal (w : World) (account : string) (pin : Z)
    (amount : float) : Method BalanceReply :=
  validate_account account;;
  validate_pin account pin;;
  validate_amount amount;;
  validate_balance account amount;;
  sub_balance account amount;;
  let time := now w in
  transaction_log account "Withdrawal" amount time "Cash withdrawal";;
  acc ← getitem account;
  mret {| reply_message :=
            [Text "✅ ₹"; Number amount;
             Text " has been successfully withdrawn."];
          reply_balance := balance acc |}.

Definition transfer (w : World) (account1 account2 : string) (pin : Z)
    (amount : float) : Method TransferReply :=
  validate_account account1;;
  validate_account account2;;
  validate_pin account1 pin;;
  validate_amount amount;;
  validate_balance account1 amount;;
  sub_balance account1 amount;;
  add_balance account2 amount;;
  let time := now w in
  transaction_log account1 ("Transfer to " +:+ account2) amount time
    "Cash transfer";;
  transaction_log account2 ("Transfer from " +:+ account1) amount time
    "Cash transfer";;
  acc1 ← getitem account1;
  acc2 ← getitem account2;
  mret {| transfer_message :=
            [Text "✅ ₹"; Number amount;
             Text (" has been successfully transferred from "
                   +:+ account1 +:+ " to " +:+ account2 +:+ ".")];
          balance_from := balance acc1;
          balance_to := balance acc2 |}.

(** The ledger [account_creation("Alice", B, "1995-05-12", 1234)] leaves
    behind on [Bank()] in [demo_world], for a float [B]. *)
Definition opened_with (B : float) : Bank :=
  {| accounts :=
       <[alice :=
           {| account_holder := "Alice";
              balance := B;
              transaction_history :=
                [ {| txn_type := "Deposit"; txn_amount := B;
                     txn_time := now demo_world;
                     txn_note := "Opening balance" |} ];
              creation_time := now demo_world;
              dob := Date 1995 5 12;
              pin := 1234 |}]> ∅ |}.

(** The Python literals [28.2], [200.1] and [8.11]. *)
Definition f28_2 : float := 0x1.c333333333333p+4%float.
Definition f200_1 : float := 0x1.9033333333333p+7%float.
Definition f8_11 : float := 0x1.03851eb851eb8p+3%float.

End Decimal.

(** * Properties *)

Section Properties.

Variable strptime : string → option date.

(** ** What each helper does on a given ledger *)

Lemma run_bind {A B} (m : Method A) (f : A → Method B) self :
  (m ≫= f) self =
    match m self with
    | Returned a self' => f a self'
    | Raised e self' => Raised e self'
    | Looping => Looping
    end.
Proof. reflexivity. Qed.

Lemma run_fmap {A B} (f : A → B) (m : Method A) self :
  (f <$> m) self =
    match m self with
    | Returned a self' => Returned (f a) self'
    | Raised e self' => Raised e self'
    | Looping => Looping
    end.
Proof. reflexivity. Qed.

Lemma run_ret {A} (a : A) self : (mret a : Method A) self = Returned a self.
Proof. reflexivity. Qed.

Lemma validate_account_eq account self :
  validate_account account self =
    match accounts self !! account with
    | Some _ => Returned () self
    | None => Raised (AccountNotFound "Account not found") self
    end.
Proof.
  unfold validate_account, contains. rewrite run_bind.
  destruct (accounts self !! account) as [acc|] eqn:E.
  - rewrite bool_decide_eq_true_2 by eauto. reflexivity.
  - rewrite bool_decide_eq_false_2 by (intros [? ?]; discriminate). reflexivity.
Qed.

Lemma getitem_Some account acc self :
  accounts self !! account = Some acc → getitem account self = Returned acc self.
Proof. unfold getitem. intros ->. reflexivity. Qed.

Lemma validate_pin_eq account p acc self :
  accounts self !! account = Some acc →
  validate_pin account p self =
    if bool_decide (p ≠ pin acc) then Raised (InvalidPinError "Invalid Pin") self
    else Returned () self.
Proof.
  intros E. unfold validate_pin. rewrite run_bind, (getitem_Some _ _ _ E).
  case_bool_decide; reflexivity.
Qed.

Lemma validate_amount_eq amount self :
  validate_amount amount self =
    if amount <=? 0 then
      Raised (InvalidAmountError
        "Amount for deposit/withdrawal/transfer should be greater than 0") self
    else Returned () self.
Proof. unfold validate_amount. destruct (amount <=? 0); reflexivity. Qed.

Lemma validate_balance_eq account amount acc self :
  accounts self !! account = Some acc →
  validate_balance account amount self =
    if balance acc - amount <? MIN_BALANCE then
      Raised (InsufficientBalanceError
        ("Balance after withdrawal/transfer should be more than ₹"
         +:+ str MIN_BALANCE)) self
    else Returned () self.
Proof.
  intros E. unfold validate_balance. rewrite run_bind, (getitem_Some _ _ _ E).
  destruct (balance acc - amount <? MIN_BALANCE); reflexivity.
Qed.

Lemma add_balance_eq account delta acc self :
  accounts self !! account = Some acc →
  add_balance account delta self =
    Returned ()
      {| accounts :=
           <[account := with_balance (balance acc + delta) acc]> (accounts self) |}.
Proof.
  intros E. unfold add_balance. rewrite run_bind, (getitem_Some _ _ _ E).
  reflexivity.
Qed.

Lemma sub_balance_eq account delta acc self :
  accounts self !! account = Some acc →
  sub_balance account delta self =
    Returned ()
      {| accounts :=
           <[account := with_balance (balance acc - delta) acc]> (accounts self) |}.
Proof.
  intros E. unfold sub_balance. rewrite run_bind, (getitem_Some _ _ _ E).
  reflexivity.
Qed.

Lemma transaction_log_eq account type_of_txn amount time note acc self :
  accounts self !! account = Some acc →
  transaction_log account type_of_txn amount time note self =
    Returned ()
      {| accounts :=
           <[account :=
               with_history
                 (transaction_history acc ++
                  [ {| txn_type := type_of_txn; txn_amount := amount;
                       txn_time := time; txn_note := note |} ]) acc]>
             (accounts self) |}.
Proof.
  intros E. unfold transaction_log. rewrite run_bind, (getitem_Some _ _ _ E).
  reflexivity.
Qed.

(** Reading the ledger back after an assignment to one of its keys. *)
Lemma accounts_insert_eq (m : gmap string Account) k acc :
  accounts {| accounts := <[k := acc]> m |} !! k = Some acc.
Proof. apply lookup_insert_eq. Qed.

Lemma accounts_insert_ne (m : gmap string Account) k k' acc :
  k ≠ k' → accounts {| accounts := <[k := acc]> m |} !! k' = m !! k'.
Proof. apply lookup_insert_ne. Qed.

(** ** What each operation does on a given ledger *)

Lemma deposit_eq w account p amount self :
  deposit w account p amount self =
    match accounts self !! account with
    | None => Raised (AccountNotFound "Account not found") self
    | Some acc =>
        if bool_decide (p ≠ pin acc) then
          Raised (InvalidPinError "Invalid Pin") self
        else if amount <=? 0 then
          Raised (InvalidAmountError
            "Amount for deposit/withdrawal/transfer should be greater than 0")
            self
        else
          Returned
            {| reply_message :=
                 "✅ ₹" +:+ str amount +:+ " has been successfully deposited.";
               reply_balance := balance acc + amount |}
            {| accounts :=
                 <[account :=
                     with_history
                       (transaction_history acc ++ [deposit_txn w amount])
                       (with_balance (balance acc + amount) acc)]>
                   (accounts self) |}
    end.
Proof.
  unfold deposit. rewrite run_bind, validate_account_eq.
  destruct (accounts self !! account) as [acc|] eqn:E; [|done].
  rewrite run_bind, (validate_pin_eq _ _ _ _ E).
  case_bool_decide; [done|].
  rewrite run_bind, validate_amount_eq.
  destruct (amount <=? 0); [done|].
  rewrite run_bind, (add_balance_eq _ _ _ _ E).
  erewrite run_bind, transaction_log_eq by apply accounts_insert_eq.
  erewrite run_bind, getitem_Some by apply accounts_insert_eq.
  rewrite run_ret. cbn [accounts]. rewrite insert_insert_eq. reflexivity.
Qed.

Lemma withdrawal_eq w account p amount self :
  withdrawal w account p amount self =
    match accounts self !! account with
    | None => Raised (AccountNotFound "Account not found") self
    | Some acc =>
        if bool_decide (p ≠ pin acc) then
          Raised (InvalidPinError "Invalid Pin") self
        else if amount <=? 0 then
          Raised (InvalidAmountError
            "Amount for deposit/withdrawal/transfer should be greater than 0")
            self
        else if balance acc - amount <? MIN_BALANCE then
          Raised (InsufficientBalanceError
            ("Balance after withdrawal/transfer should be more than ₹"
             +:+ str MIN_BALANCE)) self
        else
          Returned
            {| reply_message :=
                 "✅ ₹" +:+ str amount +:+ " has been successfully withdrawn.";
               reply_balance := balance acc - amount |}
            {| accounts :=
                 <[account :=
                     with_history
                       (transaction_history acc ++ [withdrawal_txn w amount])
                       (with_balance (balance acc - amount) acc)]>
                   (accounts self) |}
    end.
Proof.
  unfold withdrawal. rewrite run_bind, validate_account_eq.
  destruct (accounts self !! account) as [acc|] eqn:E; [|done].
  rewrite run_bind, (validate_pin_eq _ _ _ _ E).
  case_bool_decide; [done|].
  rewrite run_bind, validate_amount_eq.
  destruct (amount <=? 0); [done|].
  rewrite run_bind, (validate_balance_eq _ _ _ _ E).
  destruct (balance acc - amount <? MIN_BALANCE); [done|].
  rewrite run_bind, (sub_balance_eq _ _ _ _ E).
  erewrite run_bind, transaction_log_eq by apply accounts_insert_eq.
  erewrite run_bind, getitem_Some by apply accounts_insert_eq.
  rewrite run_ret. cbn [accounts]. rewrite insert_insert_eq. reflexivity.
Qed.

Lemma transfer_eq w account1 account2 p amount self :
  transfer w account1 account2 p amount self =
    match accounts self !! account1, accounts self !! account2 with
    | None, _ | _, None => Raised (AccountNotFound "Account not found") self
    | Some acc1, Some _ =>
        if bool_decide (p ≠ pin acc1) then
          Raised (InvalidPinError "Invalid Pin") self
        else if amount <=? 0 then
          Raised (InvalidAmountError
            "Amount for deposit/withdrawal/transfer should be greater than 0")
            self
        else if balance acc1 - amount <? MIN_BALANCE then
          Raised (InsufficientBalanceError
            ("Balance after withdrawal/transfer should be more than ₹"
             +:+ str MIN_BALANCE)) self
        else transfer_commit w account1 account2 amount self
    end.
Proof.
  unfold transfer. rewrite run_bind, validate_account_eq.
  destruct (accounts self !! account1) as [acc1|] eqn:E1; [|done].
  rewrite run_bind, validate_account_eq.
  destruct (accounts self !! account2) as [acc2|] eqn:E2; [|done].
  rewrite run_bind, (validate_pin_eq _ _ _ _ E1).
  case_bool_decide; [done|].
  rewrite run_bind, validate_amount_eq.
  destruct (amount <=? 0); [done|].
  rewrite run_bind, (validate_balance_eq _ _ _ _ E1).
  destruct (balance acc1 - amount <? MIN_BALANCE); [done|].
  reflexivity.
Qed.

Lemma transfer_commit_distinct w account1 account2 amount acc1 acc2 self :
  account1 ≠ account2 →
  accounts self !! account1 = Some acc1 →
  accounts self !! account2 = Some acc2 →
  transfer_commit w account1 account2 amount self =
    Returned
      {| transfer_message :=
           "✅ ₹" +:+ str amount +:+ " has been successfully transferred from "
           +:+ account1 +:+ " to " +:+ account2 +:+ ".";
         balance_from := balance acc1 - amount;
         balance_to := balance acc2 + amount |}
      {| accounts :=
           <[account2 :=
               with_history
                 (transaction_history acc2 ++ [transfer_in_txn w account1 amount])
                 (with_balance (balance acc2 + amount) acc2)]>
             (<[account1 :=
                  with_history
                    (transaction_history acc1 ++
                     [transfer_out_txn w account2 amount])
                    (with_balance (balance acc1 - amount) acc1)]>
                (accounts self)) |}.
Proof.
  intros Hne E1 E2. unfold transfer_commit.
  rewrite run_bind, (sub_balance_eq _ _ _ _ E1).
  erewrite run_bind, add_balance_eq
    by (rewrite accounts_insert_ne by done; exact E2).
  erewrite run_bind, transaction_log_eq
    by (cbn [accounts]; rewrite lookup_insert_ne by done; apply lookup_insert_eq).
  erewrite run_bind, transaction_log_eq
    by (cbn [accounts]; rewrite lookup_insert_ne by done; apply lookup_insert_eq).
  erewrite run_bind, getitem_Some
    by (cbn [accounts]; rewrite lookup_insert_ne by done; apply lookup_insert_eq).
  erewrite run_bind, getitem_Some by apply accounts_insert_eq.
  rewrite run_ret. cbn [accounts balance with_history with_balance].
  rewrite (insert_insert_ne _ account1 account2) by done.
  rewrite !insert_insert_eq. reflexivity.
Qed.

Lemma transfer_commit_self w account amount acc self :
  accounts self !! account = Some acc →
  transfer_commit w account account amount self =
    Returned
      {| transfer_message :=
           "✅ ₹" +:+ str amount +:+ " has been successfully transferred from "
           +:+ account +:+ " to " +:+ account +:+ ".";
         balance_from := balance acc - amount + amount;
         balance_to := balance acc - amount + amount |}
      {| accounts :=
           <[account :=
               with_history
                 ((transaction_history acc ++
                   [transfer_out_txn w account amount]) ++
                  [transfer_in_txn w account amount])
                 (with_balance (balance acc - amount + amount) acc)]>
             (accounts self) |}.
Proof.
  intros E. unfold transfer_commit.
  rewrite run_bind, (sub_balance_eq _ _ _ _ E).
  erewrite run_bind, add_balance_eq by apply accounts_insert_eq.
  erewrite run_bind, transaction_log_eq by apply accounts_insert_eq.
  erewrite run_bind, transaction_log_eq by apply accounts_insert_eq.
  erewrite run_bind, getitem_Some by apply accounts_insert_eq.
  erewrite run_bind, getitem_Some by apply accounts_insert_eq.
  rewrite run_ret. cbn [accounts balance with_history with_balance].
  rewrite !insert_insert_eq. reflexivity.
Qed.

Lemma display_balance_eq account p self :
  display_balance account p self =
    match accounts self !! account with
    | None => Raised (AccountNotFound "Account not found") self
    | Some acc =>
        if bool_decide (p ≠ pin acc) then
          Raised (InvalidPinError "Invalid Pin") self
        else
          Returned
            {| reply_balance := balance acc;
               reply_message :=
                 "💰 Your current balance is: ₹" +:+ str (balance acc) |}
            self
    end.
Proof.
  unfold display_balance. rewrite run_bind, validate_account_eq.
  destruct (accounts self !! account) as [acc|] eqn:E; [|done].
  rewrite run_bind, (validate_pin_eq _ _ _ _ E).
  case_bool_decide; [done|].
  rewrite run_bind, (getitem_Some _ _ _ E).
  rewrite run_bind, (getitem_Some _ _ _ E). reflexivity.
Qed.

Lemma display_account_info_eq account p self :
  display_account_info account p self =
    match accounts self !! account with
    | None => Raised (AccountNotFound "Account not found") self
    | Some acc =>
        if bool_decide (p ≠ pin acc) then
          Raised (InvalidPinError "Invalid Pin") self
        else
          Returned
            {| field_names := ["Field"; "Value"];
               rows :=
                 [ [CStr "Account Number"; CStr account];
                   [CStr "Account Holder"; CStr (account_holder acc)];
                   [CStr "Balance"; CStr ("₹" +:+ str (balance acc))];
                   [CStr "Date of Birth"; CDate (dob acc)] ] |}
            self
    end.
Proof.
  unfold display_account_info. rewrite run_bind, validate_account_eq.
  destruct (accounts self !! account) as [acc|] eqn:E; [|done].
  rewrite run_bind, (validate_pin_eq _ _ _ _ E).
  case_bool_decide; [done|].
  rewrite run_bind, (getitem_Some _ _ _ E). reflexivity.
Qed.

Lemma display_transaction_history_eq account p self :
  display_transaction_history account p self =
    match accounts self !! account with
    | None => Raised (AccountNotFound "Account not found") self
    | Some acc =>
        if bool_decide (p ≠ pin acc) then
          Raised (InvalidPinError "Invalid Pin") self
        else
          Returned
            (foldl (λ table transaction,
                      add_row [ CStr (txn_type transaction);
                                CStr (str (txn_amount transaction));
                                CStr (strftime (txn_time transaction));
                                CStr (txn_note transaction) ] table)
               (set_field_names ["Type"; "Amount (₹)"; "Time"; "Note"]
                  PrettyTable_new)
               (transaction_history acc))
            self
    end.
Proof.
  unfold display_transaction_history. rewrite run_bind, validate_account_eq.
  destruct (accounts self !! account) as [acc|] eqn:E; [|done].
  rewrite run_bind, (validate_pin_eq _ _ _ _ E).
  case_bool_decide; [done|].
  rewrite run_bind, (getitem_Some _ _ _ E). reflexivity.
Qed.

Lemma generate_account_number_eq draws self :
  generate_account_number draws self =
    match first_free (accounts self) draws with
    | Some account_number => Returned account_number self
    | None => Looping
    end.
Proof.
  induction draws as [|r draws IH]; [reflexivity|].
  cbn [generate_account_number first_free]. unfold contains.
  rewrite run_bind.
  destruct (accounts self !! (ACCOUNT_PREFIX +:+ zfill 4 (str r))) eqn:E.
  - rewrite bool_decide_eq_true_2 by eauto. exact IH.
  - rewrite bool_decide_eq_false_2 by (intros [? ?]; discriminate).
    reflexivity.
Qed.

Lemma first_free_fresh m draws account_number :
  first_free m draws = Some account_number → m !! account_number = None.
Proof.
  induction draws as [|r draws IH]; [discriminate|].
  cbn [first_free].
  destruct (m !! (ACCOUNT_PREFIX +:+ zfill 4 (str r))) eqn:E; [exact IH|].
  intros [= <-]. exact E.
Qed.

Lemma first_free_drawn m draws account_number :
  first_free m draws = Some account_number →
  ∃ r, r ∈ draws ∧ account_number = ACCOUNT_PREFIX +:+ zfill 4 (str r).
Proof.
  induction draws as [|r draws IH]; [discriminate|].
  cbn [first_free].
  destruct (m !! (ACCOUNT_PREFIX +:+ zfill 4 (str r))) eqn:E.
  - intros H. destruct (IH H) as (r' & Hin & ->).
    exists r'. split; [by right|done].
  - intros [= <-]. exists r. split; [by left|done].
Qed.

Lemma account_creation_eq w name balance dob pin self :
  account_creation strptime w name balance dob pin self =
    if Z.of_nat (size (accounts self)) =? MAX_ACCOUNTS then
      Raised (LimitError
        "Total account limit reached. Unable to create a new account.") self
    else
      match strptime dob with
      | None =>
          Raised (InvalidDateFormatError
            "Invalid date format. Please use YYYY-MM-DD.") self
      | Some dob_date =>
          if negb ((MIN_AGE <=? age_on (today w) dob_date)
                   && (age_on (today w) dob_date <=? MAX_AGE)) then
            Raised (InvalidAgeError
              ("Sorry account creation is only allowed between the ages of "
               +:+ str MIN_AGE +:+ " and " +:+ str MAX_AGE)) self
          else if balance <? MIN_BALANCE then
            Raised (InvalidAmountError
              ("Opening balance must be at least ₹" +:+ str MIN_BALANCE +:+ "."))
              self
          else
            match first_free (accounts self) (randint_suffix w) with
            | None => Looping
            | Some account_number =>
                Returned
                  {| created_account_number := account_number;
                     created_pin := effective_pin w pin;
                     created_message := "✅ Account created successfully!" |}
                  {| accounts :=
                       <[account_number :=
                           opening_account w name balance dob_date pin]>
                         (accounts self) |}
            end
      end.
Proof.
  unfold account_creation. rewrite run_bind. unfold len_accounts.
  destruct (Z.of_nat (size (accounts self)) =? MAX_ACCOUNTS); [done|].
  unfold try_except_ValueError, strptime_date. rewrite run_bind.
  destruct (strptime dob) as [dob_date|]; [|done].
  rewrite run_ret.
  destruct (negb _); [done|].
  destruct (balance <? MIN_BALANCE); [done|].
  rewrite run_bind.
  assert (Hpin : (match pin with
                  | None => generate_pin w
                  | Some p =>
                      if negb ((1000 <=? p) && (p <=? 9999))
                      then generate_pin w else mret p
                  end) self = Returned (effective_pin w pin) self).
  { unfold generate_pin, effective_pin. destruct pin as [p|]; [|done].
    destruct ((1000 <=? p) && (p <=? 9999)); done. }
  rewrite Hpin, run_bind, generate_account_number_eq.
  destruct (first_free (accounts self) (randint_suffix w)); done.
Qed.

(** [transfer_commit] returns once both accounts are known. *)
Lemma transfer_commit_returns w account1 account2 amount acc1 acc2 self :
  accounts self !! account1 = Some acc1 →
  accounts self !! account2 = Some acc2 →
  ∃ r self', transfer_commit w account1 account2 amount self = Returned r self'.
Proof.
  intros E1 E2. destruct (decide (account1 = account2)) as [<-|Hne].
  - rewrite (transfer_commit_self _ _ _ _ _ E1). eauto.
  - rewrite (transfer_commit_distinct _ _ _ _ _ _ _ Hne E1 E2). eauto.
Qed.

(** ** Failure leaves the ledger as it was *)

Ltac split_outcome :=
  repeat match goal with
    | |- context [match ?m !! ?k with _ => _ end] =>
        destruct (m !! k) eqn:?
    | |- context [if bool_decide ?P then _ else _] =>
        destruct (bool_decide_reflect P)
    | |- context [if ?b then _ else _] => destruct b eqn:?
    | |- context [match first_free ?m ?d with _ => _ end] =>
        destruct (first_free m d) eqn:?
    | |- context [match ?f ?x with Some _ => _ | None => _ end] =>
        destruct (f x) eqn:?
    end.

Lemma account_creation_raise_unchanged w name balance dob pin self e self' :
  account_creation strptime w name balance dob pin self = Raised e self' →
  self' = self.
Proof. rewrite account_creation_eq. split_outcome; congruence. Qed.

Lemma deposit_raise_unchanged w account p amount self e self' :
  deposit w account p amount self = Raised e self' → self' = self.
Proof. rewrite deposit_eq. split_outcome; congruence. Qed.

Lemma withdrawal_raise_unchanged w account p amount self e self' :
  withdrawal w account p amount self = Raised e self' → self' = self.
Proof. rewrite withdrawal_eq. split_outcome; congruence. Qed.

Lemma transfer_raise_unchanged w account1 account2 p amount self e self' :
  transfer w account1 account2 p amount self = Raised e self' → self' = self.
Proof.
  rewrite transfer_eq.
  destruct (accounts self !! account1) as [acc1|] eqn:E1; [|congruence].
  destruct (accounts self !! account2) as [acc2|] eqn:E2; [|congruence].
  split_outcome; try congruence.
  destruct (transfer_commit_returns w _ _ amount _ _ _ E1 E2) as (r & s & ->).
  discriminate.
Qed.

Lemma display_account_info_unchanged account p self :
  bank_after (display_account_info account p self) = Some self.
Proof. rewrite display_account_info_eq. split_outcome; reflexivity. Qed.

Lemma display_balance_unchanged account p self :
  bank_after (display_balance account p self) = Some self.
Proof. rewrite display_balance_eq. split_outcome; reflexivity. Qed.

Lemma display_transaction_history_unchanged account p self :
  bank_after (display_transaction_history account p self) = Some self.
Proof. rewrite display_transaction_history_eq. split_outcome; reflexivity. Qed.

Lemma fmap_Raised {A B} (f : A → B) (m : Method A) self e self' :
  (f <$> m) self = Raised e self' → m self = Raised e self'.
Proof. rewrite run_fmap. destruct (m self); congruence. Qed.

Lemma fmap_Returned {A B} (f : A → B) (m : Method A) self b self' :
  (f <$> m) self = Returned b self' →
  ∃ a, m self = Returned a self' ∧ b = f a.
Proof.
  rewrite run_fmap. destruct (m self) as [a s| |]; try discriminate.
  intros [= <- <-]. eauto.
Qed.

Lemma bank_after_fmap {A B} (f : A → B) (m : Method A) self :
  bank_after ((f <$> m) self) = bank_after (m self).
Proof. rewrite run_fmap. destruct (m self); reflexivity. Qed.

Lemma bank_after_Raised {A} (o : Outcome A) e self self' :
  bank_after o = Some self → o = Raised e self' → self' = self.
Proof. intros H ->. cbn in H. congruence. Qed.

(** C2: whenever a public operation (account_creation, deposit, withdrawal,
    transfer or one of the three queries) ends by raising an exception, the
    ledger the exception leaves behind is the ledger the call started from:
    the same accounts with the same balances, pins and histories. *)
Theorem failed_call_leaves_ledger_unchanged w c self e self' :
  run strptime w c self = Raised e self' → self' = self.
Proof.
  destruct c; cbn [run]; intros H%fmap_Raised.
  - eapply account_creation_raise_unchanged, H.
  - eapply deposit_raise_unchanged, H.
  - eapply withdrawal_raise_unchanged, H.
  - eapply transfer_raise_unchanged, H.
  - eapply bank_after_Raised, H. apply display_account_info_unchanged.
  - eapply bank_after_Raised, H. apply display_balance_unchanged.
  - eapply bank_after_Raised, H. apply display_transaction_history_unchanged.
Qed.

(** The exceptions that leave a public operation are among the seven
    declared ones: no [KeyError] or [ValueError] escapes. *)
Lemma run_raises_declared w c self e self' :
  run strptime w c self = Raised e self' → declared e = true.
Proof.
  destruct c; cbn [run]; intros H%fmap_Raised; revert H.
  - rewrite account_creation_eq. split_outcome; intros [= <- _]; reflexivity.
  - rewrite deposit_eq. split_outcome; intros [= <- _]; reflexivity.
  - rewrite withdrawal_eq. split_outcome; intros [= <- _]; reflexivity.
  - rewrite transfer_eq.
    destruct (accounts self !! account1) as [acc1|] eqn:E1;
      [|intros [= <- _]; reflexivity].
    destruct (accounts self !! account2) as [acc2|] eqn:E2;
      [|intros [= <- _]; reflexivity].
    split_outcome; try (intros [= <- _]; reflexivity).
    destruct (transfer_commit_returns w _ _ amount _ _ _ E1 E2) as (r & s & ->).
    discriminate.
  - rewrite display_account_info_eq.
    split_outcome; intros [= <- _]; reflexivity.
  - rewrite display_balance_eq. split_outcome; intros [= <- _]; reflexivity.
  - rewrite display_transaction_history_eq.
    split_outcome; intros [= <- _]; reflexivity.
Qed.

(** C10: display_balance, display_account_info and
    display_transaction_history end, by returning or by raising, with the
    ledger they were called on, whatever the account and the pin. *)
Theorem queries_do_not_mutate account p self :
  bank_after (display_balance account p self) = Some self ∧
  bank_after (display_account_info account p self) = Some self ∧
  bank_after (display_transaction_history account p self) = Some self.
Proof.
  split; [|split].
  - apply display_balance_unchanged.
  - apply display_account_info_unchanged.
  - apply display_transaction_history_unchanged.
Qed.

(** ** The order of the validations *)

Lemma known_Some self account acc :
  accounts self !! account = Some acc → known self account = true.
Proof. intros E. unfold known. rewrite E. apply bool_decide_eq_true_2. eauto. Qed.

Lemma known_None self account :
  accounts self !! account = None → known self account = false.
Proof.
  intros E. unfold known. rewrite E.
  apply bool_decide_eq_false_2. intros [? ?]; discriminate.
Qed.

Lemma negb_bool_decide_ne (p q : Z) :
  negb (bool_decide (p = q)) = bool_decide (p ≠ q).
Proof. repeat case_bool_decide; done. Qed.

Lemma negb_ltb_0 amount : negb (0 <? amount) = (amount <=? 0).
Proof. destruct (Z.ltb_spec 0 amount), (Z.leb_spec amount 0); try lia; done. Qed.

Lemma negb_leb_MIN_BALANCE b :
  negb (MIN_BALANCE <=? b) = (b <? MIN_BALANCE).
Proof.
  destruct (Z.leb_spec MIN_BALANCE b), (Z.ltb_spec b MIN_BALANCE);
    try lia; done.
Qed.

(** C4: deposit, withdrawal and transfer check account existence, then the
    pin, then that the amount is positive, then (withdrawal and transfer) that
    the balance suffices; on every input the exception raised is the one of
    the earliest of these checks that fails, and none is raised when all
    pass. *)
Theorem validation_order w self account account2 p amount :
  raised (deposit w account p amount self) =
    error_of_check <$>
      first_violation (known self account) (pin_matches self account p)
        (0 <? amount) true
  ∧ raised (withdrawal w account p amount self) =
    error_of_check <$>
      first_violation (known self account) (pin_matches self account p)
        (0 <? amount) (balance_suffices self account amount)
  ∧ raised (transfer w account account2 p amount self) =
    error_of_check <$>
      first_violation (known self account && known self account2)
        (pin_matches self account p)
        (0 <? amount) (balance_suffices self account amount).
Proof.
  unfold first_violation, pin_matches, balance_suffices.
  rewrite deposit_eq, withdrawal_eq, transfer_eq.
  destruct (accounts self !! account) as [acc|] eqn:E.
  2: { rewrite (known_None _ _ E). done. }
  rewrite (known_Some _ _ _ E), negb_bool_decide_ne, negb_ltb_0,
    negb_leb_MIN_BALANCE.
  cbn [negb andb].
  split; [|split].
  - case_bool_decide; [done|]. destruct (amount <=? 0); done.
  - case_bool_decide; [done|]. destruct (amount <=? 0); [done|].
    destruct (balance acc - amount <? MIN_BALANCE); done.
  - destruct (accounts self !! account2) as [acc2|] eqn:E2.
    2: { rewrite (known_None _ _ E2). done. }
    rewrite (known_Some _ _ _ E2). cbn [negb].
    case_bool_decide; [done|]. destruct (amount <=? 0); [done|].
    destruct (balance acc - amount <? MIN_BALANCE); [done|].
    destruct (transfer_commit_returns w _ _ amount _ _ _ E E2) as (r & s & ->).
    done.
Qed.

(** The example of an unknown account, a wrong pin and a negative amount. *)
Example unknown_account_wins :
  raised (deposit demo_world "2304069999" 1 (-5) demo_bank)
    = Some (AccountNotFound "Account not found")
  ∧ raised (withdrawal demo_world "2304069999" 1 (-5) demo_bank)
    = Some (AccountNotFound "Account not found")
  ∧ raised (transfer demo_world "2304069999" alice 1 (-5) demo_bank)
    = Some (AccountNotFound "Account not found").
Proof. repeat split; vm_compute; reflexivity. Qed.

(** ** The balance floor *)

Lemma keeps_floor_refl self : keeps_floor self self.
Proof. intros account acc' E H. exact (H _ E). Qed.

Lemma keeps_floor_insert self account new :
  ((∀ acc, accounts self !! account = Some acc → MIN_BALANCE ≤ balance acc) →
   MIN_BALANCE ≤ balance new) →
  keeps_floor self {| accounts := <[account := new]> (accounts self) |}.
Proof.
  intros Hnew k acc' E H. cbn [accounts] in E.
  destruct (decide (account = k)) as [->|Hne].
  - rewrite lookup_insert_eq in E. injection E as <-. exact (Hnew H).
  - rewrite lookup_insert_ne in E by done. exact (H _ E).
Qed.

Lemma keeps_floor_insert2 self account1 new1 account2 new2 :
  account1 ≠ account2 →
  ((∀ acc, accounts self !! account1 = Some acc → MIN_BALANCE ≤ balance acc) →
   MIN_BALANCE ≤ balance new1) →
  ((∀ acc, accounts self !! account2 = Some acc → MIN_BALANCE ≤ balance acc) →
   MIN_BALANCE ≤ balance new2) →
  keeps_floor self
    {| accounts := <[account2 := new2]> (<[account1 := new1]> (accounts self)) |}.
Proof.
  intros Hne H1 H2 k acc' E H. cbn [accounts] in E.
  destruct (decide (account2 = k)) as [->|Hne2].
  - rewrite lookup_insert_eq in E. injection E as <-. exact (H2 H).
  - rewrite lookup_insert_ne in E by done.
    destruct (decide (account1 = k)) as [->|Hne1].
    + rewrite lookup_insert_eq in E. injection E as <-. exact (H1 H).
    + rewrite lookup_insert_ne in E by done. exact (H _ E).
Qed.

Lemma account_creation_keeps_floor w name balance dob pin self r self' :
  account_creation strptime w name balance dob pin self = Returned r self' →
  keeps_floor self self'.
Proof.
  rewrite account_creation_eq.
  destruct (_ =? MAX_ACCOUNTS); [discriminate|].
  destruct (strptime dob) as [dob_date|]; [|discriminate].
  destruct (negb _); [discriminate|].
  destruct (Z.ltb_spec balance MIN_BALANCE) as [|Hb]; [discriminate|].
  destruct (first_free _ _) as [account_number|]; [|discriminate].
  intros [= <- <-]. apply keeps_floor_insert. intros _. exact Hb.
Qed.

Lemma deposit_keeps_floor w account p amount self r self' :
  deposit w account p amount self = Returned r self' → keeps_floor self self'.
Proof.
  rewrite deposit_eq.
  destruct (accounts self !! account) as [acc|] eqn:E; [|discriminate].
  case_bool_decide; [discriminate|].
  destruct (Z.leb_spec amount 0); [discriminate|].
  intros [= <- <-]. apply keeps_floor_insert. intros Hfloor.
  specialize (Hfloor _ E). cbn. lia.
Qed.

Lemma withdrawal_keeps_floor w account p amount self r self' :
  withdrawal w account p amount self = Returned r self' →
  keeps_floor self self'.
Proof.
  rewrite withdrawal_eq.
  destruct (accounts self !! account) as [acc|] eqn:E; [|discriminate].
  case_bool_decide; [discriminate|].
  destruct (Z.leb_spec amount 0); [discriminate|].
  destruct (Z.ltb_spec (balance acc - amount) MIN_BALANCE); [discriminate|].
  intros [= <- <-]. apply keeps_floor_insert. intros _. cbn. lia.
Qed.

Lemma transfer_keeps_floor w account1 account2 p amount self r self' :
  transfer w account1 account2 p amount self = Returned r self' →
  keeps_floor self self'.
Proof.
  rewrite transfer_eq.
  destruct (accounts self !! account1) as [acc1|] eqn:E1; [|discriminate].
  destruct (accounts self !! account2) as [acc2|] eqn:E2; [|discriminate].
  case_bool_decide; [discriminate|].
  destruct (Z.leb_spec amount 0); [discriminate|].
  destruct (Z.ltb_spec (balance acc1 - amount) MIN_BALANCE); [discriminate|].
  destruct (decide (account1 = account2)) as [<-|Hne].
  - rewrite (transfer_commit_self _ _ _ _ _ E1). intros [= <- <-].
    apply keeps_floor_insert. intros Hfloor. specialize (Hfloor _ E1).
    cbn. lia.
  - rewrite (transfer_commit_distinct _ _ _ _ _ _ _ Hne E1 E2).
    intros [= <- <-]. apply keeps_floor_insert2; [done | |].
    + intros _. cbn. lia.
    + intros Hfloor. specialize (Hfloor _ E2). cbn. lia.
Qed.

Lemma bank_after_Returned {A} (o : Outcome A) a self self' :
  bank_after o = Some self → o = Returned a self' → self' = self.
Proof. intros H ->. cbn in H. congruence. Qed.

(** C1: after a public operation that completes, every account of the
    ledger that had at least MIN_BALANCE (100) before the call has at least
    100 after it, and an account the call created has at least 100. *)
Theorem balance_floor_preserved w c self r self' account acc' :
  run strptime w c self = Returned r self' →
  accounts self' !! account = Some acc' →
  (∀ acc, accounts self !! account = Some acc → MIN_BALANCE ≤ balance acc) →
  MIN_BALANCE ≤ balance acc'.
Proof.
  intros Hrun. revert account acc'. fold (keeps_floor self self').
  destruct c; cbn [run] in Hrun;
    apply fmap_Returned in Hrun as (a & Hrun & _).
  - eapply account_creation_keeps_floor, Hrun.
  - eapply deposit_keeps_floor, Hrun.
  - eapply withdrawal_keeps_floor, Hrun.
  - eapply transfer_keeps_floor, Hrun.
  - rewrite (bank_after_Returned _ _ _ _
               (display_account_info_unchanged _ _ _) Hrun).
    apply keeps_floor_refl.
  - rewrite (bank_after_Returned _ _ _ _
               (display_balance_unchanged _ _ _) Hrun).
    apply keeps_floor_refl.
  - rewrite (bank_after_Returned _ _ _ _
               (display_transaction_history_unchanged _ _ _) Hrun).
    apply keeps_floor_refl.
Qed.

(** ** Transfers *)

Lemma transfer_passes_validation w account1 account2 p amount acc1 acc2 self :
  accounts self !! account1 = Some acc1 →
  accounts self !! account2 = Some acc2 →
  p = pin acc1 →
  0 < amount →
  MIN_BALANCE ≤ balance acc1 - amount →
  transfer w account1 account2 p amount self =
    transfer_commit w account1 account2 amount self.
Proof.
  intros E1 E2 Hp Ha Hb. rewrite transfer_eq, E1, E2.
  rewrite bool_decide_eq_false_2 by (intros Hne; exact (Hne Hp)).
  destruct (Z.leb_spec amount 0); [lia|].
  destruct (Z.ltb_spec (balance acc1 - amount) MIN_BALANCE); [lia|].
  reflexivity.
Qed.

(** C3, as amended: for two distinct accounts X and Y of the ledger, the
    pin of X and an amount A > 0: if X's balance minus A is at least 100,
    transfer returns, reports and leaves X with its balance minus A and Y with
    its balance plus A, and appends one record to each history, "Transfer to
    Y" on X and "Transfer from X" on Y, with the same time; if X's balance
    minus A is below 100, transfer raises InsufficientBalanceError and the
    ledger is unchanged. *)
Theorem transfer_between_distinct_accounts w X Y p A accX accY self :
  X ≠ Y →
  accounts self !! X = Some accX →
  accounts self !! Y = Some accY →
  p = pin accX →
  0 < A →
  (MIN_BALANCE ≤ balance accX - A →
   ∃ r self',
     transfer w X Y p A self = Returned r self' ∧
     balance_from r = balance accX - A ∧
     balance_to r = balance accY + A ∧
     transfer_done X Y A accX accY self')
  ∧ (balance accX - A < MIN_BALANCE →
     ∃ msg,
       transfer w X Y p A self = Raised (InsufficientBalanceError msg) self).
Proof.
  intros Hne EX EY Hp HA. split.
  - intros Hb.
    rewrite (transfer_passes_validation _ _ _ _ _ _ _ _ EX EY Hp HA Hb).
    rewrite (transfer_commit_distinct _ _ _ _ _ _ _ Hne EX EY).
    eexists _, _. split; [reflexivity|]. split; [reflexivity|].
    split; [reflexivity|].
    eexists _, _, _, _. cbn [accounts].
    split; [rewrite lookup_insert_ne by done; apply lookup_insert_eq|].
    split; [apply lookup_insert_eq|].
    repeat split; reflexivity.
  - intros Hb. rewrite transfer_eq, EX, EY.
    rewrite bool_decide_eq_false_2 by (intros Hbad; exact (Hbad Hp)).
    destruct (Z.leb_spec A 0); [lia|].
    destruct (Z.ltb_spec (balance accX - A) MIN_BALANCE); [|lia].
    eauto.
Qed.

(** C9: for an account X of the ledger with balance B, its pin and an
    amount A > 0 with B - A at least 100, transfer(X, X, pin, A) returns,
    reports B as balance_from and as balance_to, leaves X with balance B and
    appends two records to X's history, "Transfer to X" then
    "Transfer from X". *)
Theorem transfer_to_self w X p A acc self :
  accounts self !! X = Some acc →
  p = pin acc →
  0 < A →
  MIN_BALANCE ≤ balance acc - A →
  ∃ r self' acc',
    transfer w X X p A self = Returned r self' ∧
    balance_from r = balance acc ∧
    balance_to r = balance acc ∧
    accounts self' !! X = Some acc' ∧
    balance acc' = balance acc ∧
    transaction_history acc' =
      transaction_history acc ++
      [transfer_out_txn w X A; transfer_in_txn w X A].
Proof.
  intros E Hp HA Hb.
  rewrite (transfer_passes_validation _ _ _ _ _ _ _ _ E E Hp HA Hb).
  rewrite (transfer_commit_self _ _ _ _ _ E).
  eexists _, _, _.
  split; [reflexivity|]. cbn [accounts balance_from balance_to].
  split; [lia|]. split; [lia|].
  split; [apply lookup_insert_eq|].
  split; [cbn; lia|].
  cbn. rewrite <- app_assoc. reflexivity.
Qed.

(** ** Deposit then withdrawal *)

(** C6: on an account with balance B of at least 100, with its pin and an
    amount D > 0, a deposit of D followed by a withdrawal of D both return,
    the balance is B again, and the history has grown by exactly two
    records, a Deposit then a Withdrawal. *)
Theorem deposit_then_withdrawal w1 w2 account p D acc self :
  accounts self !! account = Some acc →
  MIN_BALANCE ≤ balance acc →
  p = pin acc →
  0 < D →
  ∃ r1 self1 r2 self2 acc2,
    deposit w1 account p D self = Returned r1 self1 ∧
    withdrawal w2 account p D self1 = Returned r2 self2 ∧
    reply_balance r2 = balance acc ∧
    accounts self2 !! account = Some acc2 ∧
    balance acc2 = balance acc ∧
    transaction_history acc2 =
      transaction_history acc ++ [deposit_txn w1 D; withdrawal_txn w2 D].
Proof.
  intros E Hb Hp HD.
  rewrite deposit_eq, E.
  rewrite bool_decide_eq_false_2 by (intros Hbad; exact (Hbad Hp)).
  destruct (Z.leb_spec D 0); [lia|].
  eexists _, _, _, _, _. split; [reflexivity|].
  rewrite withdrawal_eq. cbn [accounts].
  rewrite lookup_insert_eq. cbn [pin with_history with_balance balance].
  rewrite bool_decide_eq_false_2 by (intros Hbad; exact (Hbad Hp)).
  destruct (Z.leb_spec D 0); [lia|].
  destruct (Z.ltb_spec (balance acc + D - D) MIN_BALANCE); [lia|].
  split; [reflexivity|].
  cbn [reply_balance accounts]. split; [lia|].
  split; [apply lookup_insert_eq|].
  split; [cbn; lia|].
  cbn. rewrite <- app_assoc. reflexivity.
Qed.

(** ** Account creation *)

(** C5: when account_creation returns, the account number it returns was
    not in the ledger before and now holds an account whose history is the
    single record (Deposit, opening balance, "Opening balance"); the pin
    returned is the pin stored, it is the caller's pin when that lies in
    [1000, 9999] and the generated pin otherwise, and it lies in
    [1000, 9999] as long as the generator keeps to its range. *)
Theorem account_creation_result w name B dob caller_pin self r self' :
  1000 ≤ randint_pin w ≤ 9999 →
  account_creation strptime w name B dob caller_pin self = Returned r self' →
  accounts self !! created_account_number r = None
  ∧ (∃ acc,
       accounts self' !! created_account_number r = Some acc ∧
       transaction_history acc =
         [ {| txn_type := "Deposit"; txn_amount := B;
              txn_time := now w; txn_note := "Opening balance" |} ] ∧
       balance acc = B ∧
       pin acc = created_pin r)
  ∧ (∀ p, caller_pin = Some p → 1000 ≤ p ≤ 9999 → created_pin r = p)
  ∧ (caller_pin = None ∨ (∃ p, caller_pin = Some p ∧ ¬ (1000 ≤ p ≤ 9999)) →
     created_pin r = randint_pin w)
  ∧ 1000 ≤ created_pin r ≤ 9999.
Proof.
  intros Hgen. rewrite account_creation_eq.
  destruct (_ =? MAX_ACCOUNTS); [discriminate|].
  destruct (strptime dob) as [dob_date|]; [|discriminate].
  destruct (negb _); [discriminate|].
  destruct (B <? MIN_BALANCE); [discriminate|].
  destruct (first_free _ _) as [account_number|] eqn:Hfree; [|discriminate].
  intros [= <- <-]. cbn [created_account_number created_pin accounts].
  split; [exact (first_free_fresh _ _ _ Hfree)|].
  split.
  { eexists. split; [apply lookup_insert_eq|]. repeat split. }
  unfold effective_pin. split; [|split].
  - intros p -> Hp.
    destruct (Z.leb_spec 1000 p), (Z.leb_spec p 9999); try lia. reflexivity.
  - intros [->|(p & -> & Hp)]; [reflexivity|].
    destruct (Z.leb_spec 1000 p), (Z.leb_spec p 9999); try lia; reflexivity.
  - destruct caller_pin as [p|]; [|exact Hgen].
    destruct (Z.leb_spec 1000 p), (Z.leb_spec p 9999); cbn [andb]; lia.
Qed.

(** account_creation does return when its checks pass and one of the draws
    gives a free number. *)
Lemma account_creation_returns w name B dob caller_pin self dob_date n :
  Z.of_nat (size (accounts self)) ≠ MAX_ACCOUNTS →
  strptime dob = Some dob_date →
  MIN_AGE ≤ age_on (today w) dob_date ≤ MAX_AGE →
  MIN_BALANCE ≤ B →
  first_free (accounts self) (randint_suffix w) = Some n →
  ∃ r self',
    account_creation strptime w name B dob caller_pin self = Returned r self'
    ∧ created_account_number r = n.
Proof.
  intros Hsize Hdob Hage HB Hfree. rewrite account_creation_eq, Hdob, Hfree.
  destruct (Z.eqb_spec (Z.of_nat (size (accounts self))) MAX_ACCOUNTS);
    [done|].
  destruct (Z.leb_spec MIN_AGE (age_on (today w) dob_date)); [|lia].
  destruct (Z.leb_spec (age_on (today w) dob_date) MAX_AGE); [|lia].
  destruct (Z.ltb_spec B MIN_BALANCE); [lia|].
  cbn [negb andb]. eauto.
Qed.

Lemma tuple_lt_precedes a b : tuple_lt a b = true ↔ precedes a b.
Proof.
  unfold tuple_lt, precedes.
  rewrite orb_true_iff, andb_true_iff, Z.ltb_lt, Z.eqb_eq, Z.ltb_lt.
  reflexivity.
Qed.

(** C8: once the limit check has passed and the date of birth has parsed,
    the age is the difference of the years, less one exactly when today's
    (month, day) precedes the birth (month, day), and account_creation raises
    InvalidAgeError if and only if that age is outside [18, 80]. *)
Theorem age_and_its_check w name B dob caller_pin self dob_date :
  Z.of_nat (size (accounts self)) ≠ MAX_ACCOUNTS →
  strptime dob = Some dob_date →
  let age := age_on (today w) dob_date in
  let today_md := (month (today w), day (today w)) in
  let birth_md := (month dob_date, day dob_date) in
  (precedes today_md birth_md →
   age = year (today w) - year dob_date - 1)
  ∧ (¬ precedes today_md birth_md →
     age = year (today w) - year dob_date)
  ∧ ((∃ msg self',
        account_creation strptime w name B dob caller_pin self =
          Raised (InvalidAgeError msg) self')
     ↔ ¬ (MIN_AGE ≤ age ≤ MAX_AGE)).
Proof.
  intros Hsize Hdob age today_md birth_md.
  split; [|split].
  - intros H%tuple_lt_precedes. subst age. unfold age_on.
    fold today_md birth_md. rewrite H. cbn [Z.b2z]. lia.
  - intros H. subst age. unfold age_on. fold today_md birth_md.
    destruct (tuple_lt today_md birth_md) eqn:Hlt.
    + apply tuple_lt_precedes in Hlt. contradiction.
    + cbn [Z.b2z]. lia.
  - rewrite account_creation_eq, Hdob. fold age.
    destruct (Z.eqb_spec (Z.of_nat (size (accounts self))) MAX_ACCOUNTS);
      [done|].
    destruct (Z.leb_spec MIN_AGE age), (Z.leb_spec age MAX_AGE);
      cbn [negb andb].
    2-4: split; [lia | eauto].
    split; [|lia]. intros (msg & s & Hr). exfalso.
    destruct (B <? MIN_BALANCE); [discriminate|].
    destruct (first_free _ _); discriminate.
Qed.

(** ** The records of the histories *)

Lemma txn_kind_transfer_to account :
  txn_kind ("Transfer to " +:+ account) = Some KindTransferOut.
Proof. reflexivity. Qed.

Lemma txn_kind_transfer_from account :
  txn_kind ("Transfer from " +:+ account) = Some KindTransferIn.
Proof. reflexivity. Qed.

Lemma histories_well_formed_insert self account new :
  histories_well_formed self →
  (∀ t, t ∈ transaction_history new → well_formed_txn t) →
  histories_well_formed {| accounts := <[account := new]> (accounts self) |}.
Proof.
  intros Hwf Hnew k acc t E Ht. cbn [accounts] in E.
  destruct (decide (account = k)) as [->|Hne].
  - rewrite lookup_insert_eq in E. injection E as <-. exact (Hnew _ Ht).
  - rewrite lookup_insert_ne in E by done. exact (Hwf _ _ _ E Ht).
Qed.

Lemma well_formed_snoc (h : list Transaction) t' :
  (∀ t, t ∈ h → well_formed_txn t) →
  well_formed_txn t' →
  ∀ t, t ∈ h ++ [t'] → well_formed_txn t.
Proof.
  intros Hh Ht' t [Hin | ->%list_elem_of_singleton]%elem_of_app; auto.
Qed.

Lemma account_creation_well_formed w name B dob caller_pin self self' :
  histories_well_formed self →
  bank_after (account_creation strptime w name B dob caller_pin self)
    = Some self' →
  histories_well_formed self'.
Proof.
  intros Hwf. rewrite account_creation_eq.
  destruct (_ =? MAX_ACCOUNTS); [intros [= <-]; exact Hwf|].
  destruct (strptime dob) as [dob_date|]; [|intros [= <-]; exact Hwf].
  destruct (negb _); [intros [= <-]; exact Hwf|].
  destruct (Z.ltb_spec B MIN_BALANCE); [intros [= <-]; exact Hwf|].
  destruct (first_free _ _) as [account_number|]; [|discriminate].
  intros [= <-]. apply histories_well_formed_insert; [exact Hwf|].
  intros t ->%list_elem_of_singleton. split; [by eexists|].
  cbn. unfold MIN_BALANCE in *. lia.
Qed.

Lemma deposit_well_formed w account p amount self self' :
  histories_well_formed self →
  bank_after (deposit w account p amount self) = Some self' →
  histories_well_formed self'.
Proof.
  intros Hwf. rewrite deposit_eq.
  destruct (accounts self !! account) as [acc|] eqn:E;
    [|intros [= <-]; exact Hwf].
  case_bool_decide; [intros [= <-]; exact Hwf|].
  destruct (Z.leb_spec amount 0); [intros [= <-]; exact Hwf|].
  intros [= <-]. apply histories_well_formed_insert; [exact Hwf|].
  cbn [transaction_history with_history].
  apply well_formed_snoc; [exact (λ t, Hwf _ _ t E)|].
  split; [by eexists|]. cbn. lia.
Qed.

Lemma withdrawal_well_formed w account p amount self self' :
  histories_well_formed self →
  bank_after (withdrawal w account p amount self) = Some self' →
  histories_well_formed self'.
Proof.
  intros Hwf. rewrite withdrawal_eq.
  destruct (accounts self !! account) as [acc|] eqn:E;
    [|intros [= <-]; exact Hwf].
  case_bool_decide; [intros [= <-]; exact Hwf|].
  destruct (Z.leb_spec amount 0); [intros [= <-]; exact Hwf|].
  destruct (_ <? MIN_BALANCE); [intros [= <-]; exact Hwf|].
  intros [= <-]. apply histories_well_formed_insert; [exact Hwf|].
  cbn [transaction_history with_history].
  apply well_formed_snoc; [exact (λ t, Hwf _ _ t E)|].
  split; [by eexists|]. cbn. lia.
Qed.

Lemma transfer_well_formed w account1 account2 p amount self self' :
  histories_well_formed self →
  bank_after (transfer w account1 account2 p amount self) = Some self' →
  histories_well_formed self'.
Proof.
  intros Hwf. rewrite transfer_eq.
  destruct (accounts self !! account1) as [acc1|] eqn:E1;
    [|intros [= <-]; exact Hwf].
  destruct (accounts self !! account2) as [acc2|] eqn:E2;
    [|intros [= <-]; exact Hwf].
  case_bool_decide; [intros [= <-]; exact Hwf|].
  destruct (Z.leb_spec amount 0); [intros [= <-]; exact Hwf|].
  destruct (_ <? MIN_BALANCE); [intros [= <-]; exact Hwf|].
  assert (Hout : well_formed_txn (transfer_out_txn w account2 amount)).
  { split; [|cbn; lia]. cbn [txn_type transfer_out_txn].
    rewrite txn_kind_transfer_to. by eexists. }
  assert (Hin : well_formed_txn (transfer_in_txn w account1 amount)).
  { split; [|cbn; lia]. cbn [txn_type transfer_in_txn].
    rewrite txn_kind_transfer_from. by eexists. }
  destruct (decide (account1 = account2)) as [<-|Hne].
  - rewrite (transfer_commit_self _ _ _ _ _ E1). intros [= <-].
    apply histories_well_formed_insert; [exact Hwf|].
    cbn [transaction_history with_history].
    apply well_formed_snoc; [|exact Hin].
    apply well_formed_snoc; [exact (λ t, Hwf _ _ t E1)|exact Hout].
  - rewrite (transfer_commit_distinct _ _ _ _ _ _ _ Hne E1 E2).
    intros [= <-].
    match goal with
    | |- histories_well_formed {| accounts := <[_ := ?x]> (<[_ := ?y]> ?m) |} =>
        change (histories_well_formed
                  {| accounts :=
                       <[account2 := x]>
                         (accounts {| accounts := <[account1 := y]> m |}) |})
    end.
    apply histories_well_formed_insert.
    + apply histories_well_formed_insert; [exact Hwf|].
      cbn [transaction_history with_history].
      apply well_formed_snoc; [exact (λ t, Hwf _ _ t E1)|exact Hout].
    + cbn [transaction_history with_history].
      apply well_formed_snoc; [exact (λ t, Hwf _ _ t E2)|exact Hin].
Qed.

Lemma run_well_formed w c self self' :
  histories_well_formed self →
  bank_after (run strptime w c self) = Some self' →
  histories_well_formed self'.
Proof.
  intros Hwf. destruct c; cbn [run]; rewrite bank_after_fmap.
  - apply account_creation_well_formed, Hwf.
  - apply deposit_well_formed, Hwf.
  - apply withdrawal_well_formed, Hwf.
  - apply transfer_well_formed, Hwf.
  - rewrite display_account_info_unchanged. intros [= <-]. exact Hwf.
  - rewrite display_balance_unchanged. intros [= <-]. exact Hwf.
  - rewrite display_transaction_history_unchanged. intros [= <-]. exact Hwf.
Qed.

(** C7: in every ledger reached from an empty one by calls of the public
    operations, every record of every history has a type that stands for one
    of the four kinds (Deposit, Withdrawal, Transfer-out, Transfer-in) and a
    strictly positive amount. *)
Theorem stored_transactions_well_formed self account acc t :
  reachable strptime self →
  accounts self !! account = Some acc →
  t ∈ transaction_history acc →
  is_Some (txn_kind (txn_type t)) ∧ 0 < txn_amount t.
Proof.
  intros Hreach. revert account acc t.
  fold (histories_well_formed self).
  induction Hreach as [|w c self self' _ IH Hstep].
  - intros account acc t E. cbn in E. rewrite lookup_empty in E. discriminate.
  - exact (run_well_formed _ _ _ _ IH Hstep).
Qed.

End Properties.

(** * The properties at work on the small ledger *)

Lemma demo_bank_alice : accounts demo_bank !! alice = Some alice_account.
Proof. vm_compute. reflexivity. Qed.

Lemma demo_bank_bob : accounts demo_bank !! bob = Some bob_account.
Proof. vm_compute. reflexivity. Qed.

Lemma balance_floor_preserved_witness :
  ∃ r self' acc',
    run strptime_ymd later_world (call_withdrawal alice 1234 100) demo_bank
      = Returned r self' ∧
    accounts self' !! alice = Some acc' ∧
    (∀ acc, accounts demo_bank !! alice = Some acc → MIN_BALANCE ≤ balance acc) ∧
    MIN_BALANCE ≤ balance acc'.
Proof.
  eexists _, _, _.
  split; [vm_compute; reflexivity|].
  split; [vm_compute; reflexivity|].
  assert (Hbefore : ∀ acc, accounts demo_bank !! alice = Some acc →
                           MIN_BALANCE ≤ balance acc).
  { intros acc E. rewrite demo_bank_alice in E. injection E as <-.
    vm_compute. discriminate. }
  split; [exact Hbefore|].
  eapply (balance_floor_preserved strptime_ymd later_world
            (call_withdrawal alice 1234 100) demo_bank _ _ alice).
  - vm_compute. reflexivity.
  - vm_compute. reflexivity.
  - exact Hbefore.
Defined.

Lemma failed_call_leaves_ledger_unchanged_witness :
  ∃ e self',
    run strptime_ymd later_world (call_withdrawal alice 1234 450) demo_bank
      = Raised e self' ∧
    self' = demo_bank.
Proof.
  eexists _, _.
  split; [vm_compute; reflexivity|].
  eapply (failed_call_leaves_ledger_unchanged strptime_ymd later_world
            (call_withdrawal alice 1234 450) demo_bank).
  vm_compute. reflexivity.
Defined.

(** C3 as stated fails when X and Y are the same account: Alice (balance
    500, pin 1234) transfers 50 to herself; every premise of the claim holds,
    yet her balance is not 500 - 50 afterwards. *)
Lemma transfer_to_self_counterexample :
  accounts demo_bank !! alice = Some alice_account ∧
  1234 = pin alice_account ∧
  0 < 50 ∧
  MIN_BALANCE ≤ balance alice_account - 50 ∧
  ¬ ∃ r self',
      transfer demo_world alice alice 1234 50 demo_bank = Returned r self' ∧
      transfer_done alice alice 50 alice_account alice_account self'.
Proof.
  split; [exact demo_bank_alice|].
  split; [reflexivity|].
  split; [lia|].
  split; [vm_compute; discriminate|].
  intros (r & self' & Hrun & Hdone).
  rewrite (transfer_passes_validation demo_world alice alice 1234 50
             alice_account alice_account demo_bank
             demo_bank_alice demo_bank_alice) in Hrun;
    [|reflexivity|lia|vm_compute; discriminate].
  rewrite (transfer_commit_self _ _ _ _ _ demo_bank_alice) in Hrun.
  injection Hrun as <- <-.
  destruct Hdone as (accX' & accY' & tx & ty & EX & _ & HbX & _).
  cbn [accounts] in EX. rewrite lookup_insert_eq in EX.
  injection EX as <-. vm_compute in HbX. discriminate.
Qed.

Lemma transfer_between_distinct_accounts_witness :
  alice ≠ bob ∧
  accounts demo_bank !! alice = Some alice_account ∧
  accounts demo_bank !! bob = Some bob_account ∧
  1234 = pin alice_account ∧
  0 < 50 ∧
  MIN_BALANCE ≤ balance alice_account - 50 ∧
  ∃ r self',
    transfer demo_world alice bob 1234 50 demo_bank = Returned r self' ∧
    balance_from r = balance alice_account - 50 ∧
    balance_to r = balance bob_account + 50 ∧
    transfer_done alice bob 50 alice_account bob_account self'.
Proof.
  assert (Hne : alice ≠ bob) by (vm_compute; discriminate).
  assert (Hpos : 0 < 50) by lia.
  assert (Hb : MIN_BALANCE ≤ balance alice_account - 50)
    by (vm_compute; discriminate).
  split; [exact Hne|].
  split; [exact demo_bank_alice|].
  split; [exact demo_bank_bob|].
  split; [reflexivity|].
  split; [exact Hpos|].
  split; [exact Hb|].
  exact (proj1 (transfer_between_distinct_accounts demo_world alice bob 1234
                  50 alice_account bob_account demo_bank Hne
                  demo_bank_alice demo_bank_bob eq_refl Hpos) Hb).
Defined.

Lemma account_creation_result_witness :
  1000 ≤ randint_pin demo_world ≤ 9999 ∧
  account_creation strptime_ymd demo_world "Alice" 500 "1995-05-12"
    (Some 1234) Bank_init = Returned alice_created alice_bank ∧
  accounts Bank_init !! alice = None ∧
  (∃ acc,
     accounts alice_bank !! alice = Some acc ∧
     transaction_history acc =
       [ {| txn_type := "Deposit"; txn_amount := 500;
            txn_time := now demo_world; txn_note := "Opening balance" |} ] ∧
     balance acc = 500 ∧
     pin acc = 1234) ∧
  1000 ≤ created_pin alice_created ≤ 9999.
Proof.
  assert (Hgen : 1000 ≤ randint_pin demo_world ≤ 9999)
    by (vm_compute; split; discriminate).
  assert (Hrun : account_creation strptime_ymd demo_world "Alice" 500
                   "1995-05-12" (Some 1234) Bank_init
                 = Returned alice_created alice_bank)
    by (vm_compute; reflexivity).
  split; [exact Hgen|].
  split; [exact Hrun|].
  destruct (account_creation_result strptime_ymd demo_world "Alice" 500
              "1995-05-12" (Some 1234) Bank_init alice_created alice_bank
              Hgen Hrun)
    as (Hfresh & Hacc & _ & _ & Hrange).
  split; [exact Hfresh|].
  split; [exact Hacc|exact Hrange].
Defined.

Lemma deposit_then_withdrawal_witness :
  accounts demo_bank !! alice = Some alice_account ∧
  MIN_BALANCE ≤ balance alice_account ∧
  1234 = pin alice_account ∧
  0 < 50 ∧
  ∃ r1 self1 r2 self2 acc2,
    deposit demo_world alice 1234 50 demo_bank = Returned r1 self1 ∧
    withdrawal later_world alice 1234 50 self1 = Returned r2 self2 ∧
    reply_balance r2 = balance alice_account ∧
    accounts self2 !! alice = Some acc2 ∧
    balance acc2 = balance alice_account ∧
    transaction_history acc2 =
      transaction_history alice_account ++
      [deposit_txn demo_world 50; withdrawal_txn later_world 50].
Proof.
  assert (Hb : MIN_BALANCE ≤ balance alice_account)
    by (vm_compute; discriminate).
  assert (Hpos : 0 < 50) by lia.
  split; [exact demo_bank_alice|].
  split; [exact Hb|].
  split; [reflexivity|].
  split; [exact Hpos|].
  exact (deposit_then_withdrawal demo_world later_world alice 1234 50
           alice_account demo_bank demo_bank_alice Hb eq_refl Hpos).
Defined.

Lemma demo_bank_reachable : reachable strptime_ymd demo_bank.
Proof.
  apply (reachable_call strptime_ymd demo_world
           (call_account_creation "Bob" 1000 "1988-09-23" None) alice_bank).
  - apply (reachable_call strptime_ymd demo_world
             (call_account_creation "Alice" 500 "1995-05-12" (Some 1234))
             Bank_init).
    + apply reachable_init.
    + vm_compute. reflexivity.
  - vm_compute. reflexivity.
Qed.

Lemma stored_transactions_well_formed_witness :
  reachable strptime_ymd demo_bank ∧
  accounts demo_bank !! bob = Some bob_account ∧
  (∃ t, t ∈ transaction_history bob_account ∧
        is_Some (txn_kind (txn_type t)) ∧ 0 < txn_amount t).
Proof.
  split; [exact demo_bank_reachable|].
  split; [exact demo_bank_bob|].
  eexists. 
  assert (Hin : {| txn_type := "Deposit"; txn_amount := 1000;
                   txn_time := now demo_world;
                   txn_note := "Opening balance" |}
                ∈ transaction_history bob_account) by (left).
  split; [exact Hin|].
  exact (stored_transactions_well_formed strptime_ymd demo_bank bob
           bob_account _ demo_bank_reachable demo_bank_bob Hin).
Defined.

Lemma age_and_its_check_witness :
  Z.of_nat (size (accounts demo_bank)) ≠ MAX_ACCOUNTS ∧
  strptime_ymd "2008-12-25" = Some (Date 2008 12 25) ∧
  precedes (11, 4) (12, 25) ∧
  age_on (today demo_world) (Date 2008 12 25) = 2026 - 2008 - 1 ∧
  ∃ msg self',
    account_creation strptime_ymd demo_world "Carol" 500 "2008-12-25" None
      demo_bank = Raised (InvalidAgeError msg) self'.
Proof.
  assert (Hsize : Z.of_nat (size (accounts demo_bank)) ≠ MAX_ACCOUNTS)
    by (vm_compute; discriminate).
  assert (Hdob : strptime_ymd "2008-12-25" = Some (Date 2008 12 25))
    by reflexivity.
  assert (Hprec : precedes (11, 4) (12, 25)) by (left; cbn; lia).
  destruct (age_and_its_check strptime_ymd demo_world "Carol" 500
              "2008-12-25" None demo_bank (Date 2008 12 25) Hsize Hdob)
    as (Hage & _ & Hraise).
  split; [exact Hsize|].
  split; [exact Hdob|].
  split; [exact Hprec|].
  split; [exact (Hage Hprec)|].
  apply Hraise. rewrite (Hage Hprec). vm_compute. intros [H _]. apply H.
  reflexivity.
Defined.

Lemma transfer_to_self_witness :
  accounts demo_bank !! alice = Some alice_account ∧
  1234 = pin alice_account ∧
  0 < 50 ∧
  MIN_BALANCE ≤ balance alice_account - 50 ∧
  ∃ r self' acc',
    transfer demo_world alice alice 1234 50 demo_bank = Returned r self' ∧
    balance_from r = balance alice_account ∧
    balance_to r = balance alice_account ∧
    accounts self' !! alice = Some acc' ∧
    balance acc' = balance alice_account ∧
    transaction_history acc' =
      transaction_history alice_account ++
      [transfer_out_txn demo_world alice 50; transfer_in_txn demo_world alice 50].
Proof.
  assert (Hpos : 0 < 50) by lia.
  assert (Hb : MIN_BALANCE ≤ balance alice_account - 50)
    by (vm_compute; discriminate).
  split; [exact demo_bank_alice|].
  split; [reflexivity|].
  split; [exact Hpos|].
  split; [exact Hb|].
  exact (transfer_to_self demo_world alice 1234 50 alice_account demo_bank
           demo_bank_alice eq_refl Hpos Hb).
Defined.

(** * Further properties of the ledger *)

Section Further.

Variable strptime : string → option date.

(** ** Account numbers *)

Lemma account_numbers_checked :
  forallb account_number_checks (seqZ 0 10000) = true.
Proof. vm_compute. reflexivity. Qed.

Lemma account_number_checks_in_range r :
  0 ≤ r ≤ 9999 → account_number_checks r = true.
Proof.
  intros Hr. pose proof account_numbers_checked as Hall.
  rewrite forallb_forall in Hall. apply Hall.
  apply list_elem_of_In, elem_of_seqZ. lia.
Qed.

(** X1: the number built from a draw between 0 and 9999 is the prefix
    "230406" followed by four more characters, ten in all, and the draw can
    be read back from it. *)
Theorem account_number_format r :
  0 ≤ r ≤ 9999 →
  well_formed_account_number (account_number_of r) ∧
  draw_of (account_number_of r) = Some r.
Proof.
  intros Hr%account_number_checks_in_range. unfold account_number_checks in Hr.
  apply andb_prop in Hr as [Hr Hdraw]. apply andb_prop in Hr as [Hlen Hpre].
  split; [split|].
  - exact Hpre.
  - apply Nat.eqb_eq, Hlen.
  - destruct (draw_of (account_number_of r)) as [r'|]; [|discriminate].
    apply Z.eqb_eq in Hdraw. congruence.
Qed.

(** X2: two draws between 0 and 9999 that give the same account number
    are the same draw: different draws give different numbers. *)
Theorem account_number_of_inj r1 r2 :
  0 ≤ r1 ≤ 9999 →
  0 ≤ r2 ≤ 9999 →
  account_number_of r1 = account_number_of r2 →
  r1 = r2.
Proof.
  intros H1%account_number_checks_in_range H2%account_number_checks_in_range E.
  unfold account_number_checks in H1, H2. rewrite E in H1.
  apply andb_prop in H1 as [_ H1]. apply andb_prop in H2 as [_ H2].
  destruct (draw_of (account_number_of r2)) as [r'|]; [|discriminate].
  apply Z.eqb_eq in H1, H2. congruence.
Qed.

(** ** [generate_account_number] *)

Lemma generate_account_number_cons r draws self :
  generate_account_number (r :: draws) self =
    match accounts self !! account_number_of r with
    | None => Returned (account_number_of r) self
    | Some _ => generate_account_number draws self
    end.
Proof.
  rewrite !generate_account_number_eq. cbn [first_free].
  fold (account_number_of r).
  destruct (accounts self !! account_number_of r); reflexivity.
Qed.

(** X3: when generate_account_number returns, it has not touched the
    ledger, the number it returns is not a key of the ledger, it is the
    number of one of the draws, and the numbers of all earlier draws are
    keys of the ledger. *)
Theorem generate_account_number_result draws self account_number self' :
  generate_account_number draws self = Returned account_number self' →
  self' = self ∧
  accounts self !! account_number = None ∧
  ∃ taken r rest,
    draws = taken ++ r :: rest ∧
    account_number = account_number_of r ∧
    Forall (λ r', is_Some (accounts self !! account_number_of r')) taken.
Proof.
  induction draws as [|r draws IH]; [discriminate|].
  rewrite generate_account_number_cons.
  destruct (accounts self !! account_number_of r) as [acc|] eqn:E.
  - intros (-> & Hfree & taken & r' & rest & -> & -> & Htaken)%IH.
    split; [reflexivity|]. split; [exact Hfree|].
    exists (r :: taken), r', rest. split; [reflexivity|].
    split; [reflexivity|]. constructor; [eauto|exact Htaken].
  - intros [= <- <-]. split; [reflexivity|]. split; [exact E|].
    exists [], r, draws. repeat split. constructor.
Qed.

(** X4: generate_account_number never raises; it returns exactly when one
    of the draws gives a number that is not yet a key, and is still in its
    loop after draws that all collide. *)
Theorem generate_account_number_returns_iff draws self :
  ((∃ account_number self',
      generate_account_number draws self = Returned account_number self')
   ↔ ∃ r, r ∈ draws ∧ accounts self !! account_number_of r = None)
  ∧ (generate_account_number draws self = Looping
     ↔ ∀ r, r ∈ draws → is_Some (accounts self !! account_number_of r))
  ∧ ∀ e self', generate_account_number draws self ≠ Raised e self'.
Proof.
  induction draws as [|r draws (IHret & IHloop & IHraise)].
  - split; [|split].
    + split; [intros (n & s & [=])|intros (r & []%elem_of_nil & _)].
    + split; [intros _ r []%elem_of_nil|reflexivity].
    + discriminate.
  - rewrite generate_account_number_cons.
    destruct (accounts self !! account_number_of r) as [acc|] eqn:E.
    + split; [|split].
      * rewrite IHret. split.
        -- intros (r' & Hin & Hfree). exists r'. split; [by right|done].
        -- intros (r' & [->|Hin]%elem_of_cons & Hfree); [congruence|eauto].
      * rewrite IHloop. split.
        -- intros H r' [->|Hin]%elem_of_cons; [eauto|auto].
        -- intros H r' Hin. apply H. by right.
      * exact IHraise.
    + split; [|split].
      * split; [|eauto]. intros _. exists r. split; [by left|done].
      * split; [discriminate|]. intros H.
        destruct (H r) as [acc Hacc]; [by left|congruence].
      * discriminate.
Qed.

(** ** Every call is a sequence of updates *)

Lemma signed_amount_deposit w amount :
  signed_amount (deposit_txn w amount) = amount.
Proof. reflexivity. Qed.

Lemma signed_amount_withdrawal w amount :
  signed_amount (withdrawal_txn w amount) = - amount.
Proof. reflexivity. Qed.

Lemma signed_amount_transfer_out w account amount :
  signed_amount (transfer_out_txn w account amount) = - amount.
Proof.
  unfold signed_amount. cbn [txn_type transfer_out_txn].
  rewrite txn_kind_transfer_to. reflexivity.
Qed.

Lemma signed_amount_transfer_in w account amount :
  signed_amount (transfer_in_txn w account amount) = amount.
Proof.
  unfold signed_amount. cbn [txn_type transfer_in_txn].
  rewrite txn_kind_transfer_from. reflexivity.
Qed.

Lemma well_formed_deposit_txn w amount :
  0 < amount → well_formed_txn (deposit_txn w amount).
Proof. intros H. split; [by eexists|exact H]. Qed.

Lemma well_formed_withdrawal_txn w amount :
  0 < amount → well_formed_txn (withdrawal_txn w amount).
Proof. intros H. split; [by eexists|exact H]. Qed.

Lemma well_formed_transfer_out_txn w account amount :
  0 < amount → well_formed_txn (transfer_out_txn w account amount).
Proof.
  intros H. split; [|exact H]. cbn [txn_type transfer_out_txn].
  rewrite txn_kind_transfer_to. by eexists.
Qed.

Lemma well_formed_transfer_in_txn w account amount :
  0 < amount → well_formed_txn (transfer_in_txn w account amount).
Proof.
  intros H. split; [|exact H]. cbn [txn_type transfer_in_txn].
  rewrite txn_kind_transfer_from. by eexists.
Qed.

Lemma post_eq delta added acc b h :
  b = balance acc + delta →
  h = transaction_history acc ++ added →
  with_history h (with_balance b acc) = post delta added acc.
Proof. intros -> ->. reflexivity. Qed.

Lemma account_creation_updates w name B dob caller_pin self self' :
  bank_after (account_creation strptime w name B dob caller_pin self)
    = Some self' →
  rtc (update w) self self'.
Proof.
  rewrite account_creation_eq.
  destruct (Z.eqb_spec (Z.of_nat (size (accounts self))) MAX_ACCOUNTS);
    [intros [= <-]; reflexivity|].
  destruct (strptime dob) as [dob_date|]; [|intros [= <-]; reflexivity].
  destruct (negb _); [intros [= <-]; reflexivity|].
  destruct (Z.ltb_spec B MIN_BALANCE); [intros [= <-]; reflexivity|].
  destruct (first_free _ _) as [account_number|] eqn:Hfree; [|discriminate].
  intros [= <-]. apply rtc_once. apply update_open; try done.
  - exact (first_free_fresh _ _ _ Hfree).
  - exact (first_free_drawn _ _ _ Hfree).
Qed.

Lemma deposit_updates w account p amount self self' :
  bank_after (deposit w account p amount self) = Some self' →
  rtc (update w) self self'.
Proof.
  rewrite deposit_eq.
  destruct (accounts self !! account) as [acc|] eqn:E;
    [|intros [= <-]; reflexivity].
  case_bool_decide; [intros [= <-]; reflexivity|].
  destruct (Z.leb_spec amount 0); [intros [= <-]; reflexivity|].
  intros [= <-]. apply rtc_once.
  apply (update_post w self account acc amount [deposit_txn w amount]);
    [exact E| |by apply Forall_singleton, well_formed_deposit_txn|lia].
  cbn [history_net foldr]. rewrite signed_amount_deposit. lia.
Qed.

Lemma withdrawal_updates w account p amount self self' :
  bank_after (withdrawal w account p amount self) = Some self' →
  rtc (update w) self self'.
Proof.
  rewrite withdrawal_eq.
  destruct (accounts self !! account) as [acc|] eqn:E;
    [|intros [= <-]; reflexivity].
  case_bool_decide; [intros [= <-]; reflexivity|].
  destruct (Z.leb_spec amount 0); [intros [= <-]; reflexivity|].
  destruct (Z.ltb_spec (balance acc - amount) MIN_BALANCE);
    [intros [= <-]; reflexivity|].
  intros [= <-]. apply rtc_once.
  rewrite (post_eq (- amount) [withdrawal_txn w amount] acc) by (done || lia).
  apply update_post; [exact E| | |lia].
  - cbn [history_net foldr]. rewrite signed_amount_withdrawal. lia.
  - by apply Forall_singleton, well_formed_withdrawal_txn.
Qed.

Lemma transfer_updates w account1 account2 p amount self self' :
  bank_after (transfer w account1 account2 p amount self) = Some self' →
  rtc (update w) self self'.
Proof.
  rewrite transfer_eq.
  destruct (accounts self !! account1) as [acc1|] eqn:E1;
    [|intros [= <-]; reflexivity].
  destruct (accounts self !! account2) as [acc2|] eqn:E2;
    [|intros [= <-]; reflexivity].
  case_bool_decide; [intros [= <-]; reflexivity|].
  destruct (Z.leb_spec amount 0); [intros [= <-]; reflexivity|].
  destruct (Z.ltb_spec (balance acc1 - amount) MIN_BALANCE);
    [intros [= <-]; reflexivity|].
  destruct (decide (account1 = account2)) as [<-|Hne].
  - rewrite (transfer_commit_self _ _ _ _ _ E1). intros [= <-].
    apply rtc_once.
    rewrite (post_eq 0 [transfer_out_txn w account1 amount;
                        transfer_in_txn w account1 amount])
      by (lia || by rewrite <- app_assoc).
    apply update_post; [exact E1| | |lia].
    + cbn [history_net foldr].
      rewrite signed_amount_transfer_out, signed_amount_transfer_in. lia.
    + constructor; [by apply well_formed_transfer_out_txn|].
      by apply Forall_singleton, well_formed_transfer_in_txn.
  - rewrite (transfer_commit_distinct _ _ _ _ _ _ _ Hne E1 E2).
    intros [= <-].
    rewrite (post_eq (- amount) [transfer_out_txn w account2 amount] acc1)
      by (done || lia).
    rewrite (post_eq amount [transfer_in_txn w account1 amount] acc2)
      by done.
    eapply rtc_l.
    + apply (update_post w self account1 acc1 (- amount)
               [transfer_out_txn w account2 amount]); [exact E1| | |lia].
      * cbn [history_net foldr]. rewrite signed_amount_transfer_out. lia.
      * by apply Forall_singleton, well_formed_transfer_out_txn.
    + apply rtc_once.
      match goal with
      | |- update _ _ {| accounts := <[_ := ?x]> ?m |} =>
          change (update w {| accounts := m |}
                    {| accounts := <[account2 := x]>
                                     (accounts {| accounts := m |}) |})
      end.
      apply update_post; [|  | |lia].
      * cbn [accounts]. rewrite lookup_insert_ne by done. exact E2.
      * cbn [history_net foldr]. rewrite signed_amount_transfer_in. lia.
      * by apply Forall_singleton, well_formed_transfer_in_txn.
Qed.

Lemma run_updates w c self self' :
  bank_after (run strptime w c self) = Some self' →
  rtc (update w) self self'.
Proof.
  destruct c; cbn [run]; rewrite bank_after_fmap.
  - apply account_creation_updates.
  - apply deposit_updates.
  - apply withdrawal_updates.
  - apply transfer_updates.
  - rewrite display_account_info_unchanged. intros [= <-]. reflexivity.
  - rewrite display_balance_unchanged. intros [= <-]. reflexivity.
  - rewrite display_transaction_history_unchanged. intros [= <-]. reflexivity.
Qed.

Lemma updates_preserve w (P : Bank → Prop) self self' :
  (∀ a b, update w a b → P a → P b) →
  rtc (update w) self self' → P self → P self'.
Proof. intros Hstep Hrtc. induction Hrtc; eauto. Qed.

Lemma reachable_invariant (P : Bank → Prop) self :
  P Bank_init →
  (∀ w a b, update w a b → P a → P b) →
  reachable strptime self → P self.
Proof.
  intros Hinit Hstep Hreach.
  induction Hreach as [|w c self self' _ IH Hrun]; [exact Hinit|].
  eapply updates_preserve; [apply Hstep|eapply run_updates, Hrun|exact IH].
Qed.

(** ** The number of accounts *)

(** X5: when account_creation returns, the ledger has exactly one account
    more, under the number returned, and every account it held before is
    still there, unchanged. *)
Theorem account_creation_adds_one w name B dob caller_pin self r self' :
  account_creation strptime w name B dob caller_pin self = Returned r self' →
  size (accounts self') = S (size (accounts self)) ∧
  is_Some (accounts self' !! created_account_number r) ∧
  ∀ k acc, accounts self !! k = Some acc → accounts self' !! k = Some acc.
Proof.
  rewrite account_creation_eq.
  destruct (_ =? MAX_ACCOUNTS); [discriminate|].
  destruct (strptime dob) as [dob_date|]; [|discriminate].
  destruct (negb _); [discriminate|].
  destruct (B <? MIN_BALANCE); [discriminate|].
  destruct (first_free _ _) as [account_number|] eqn:Hfree; [|discriminate].
  apply first_free_fresh in Hfree.
  intros [= <- <-]. cbn [accounts created_account_number].
  split; [by apply map_size_insert_None|].
  split; [rewrite lookup_insert_eq; eauto|].
  intros k acc E. rewrite lookup_insert_ne; [exact E|congruence].
Qed.

Lemma update_size w a b :
  update w a b →
  Z.of_nat (size (accounts a)) ≤ MAX_ACCOUNTS →
  Z.of_nat (size (accounts b)) ≤ MAX_ACCOUNTS.
Proof.
  intros [n name B d cp Hfresh Hfull _ _|k acc delta added E _ _ _] Hle;
    cbn [accounts].
  - rewrite map_size_insert_None by done. lia.
  - rewrite map_size_insert_Some by done. exact Hle.
Qed.

(** X6: a ledger reached from Bank() by the public operations never holds
    more than MAX_ACCOUNTS (10000) accounts. *)
Theorem account_limit_kept self :
  reachable strptime self →
  Z.of_nat (size (accounts self)) ≤ MAX_ACCOUNTS.
Proof.
  apply (reachable_invariant
           (λ self, Z.of_nat (size (accounts self)) ≤ MAX_ACCOUNTS)).
  - cbn. rewrite map_size_empty. unfold MAX_ACCOUNTS. lia.
  - intros w a b. apply update_size.
Qed.

(** ** What an account keeps *)

Lemma extends_refl acc : extends acc acc.
Proof. repeat split. exists []. by rewrite app_nil_r. Qed.

Lemma extends_trans acc1 acc2 acc3 :
  extends acc1 acc2 → extends acc2 acc3 → extends acc1 acc3.
Proof.
  intros (Hh & Hd & Hp & Hc & added & Ha) (Hh' & Hd' & Hp' & Hc' & added' & Ha').
  repeat split; try congruence.
  exists (added ++ added'). rewrite Ha', Ha. by rewrite app_assoc.
Qed.

Lemma update_persist w a b k acc :
  update w a b →
  accounts a !! k = Some acc →
  ∃ acc', accounts b !! k = Some acc' ∧ extends acc acc'.
Proof.
  intros [n name B d cp Hfresh _ _ _|k' acc0 delta added E _ _ _] Hk;
    cbn [accounts].
  - exists acc. split; [|apply extends_refl].
    rewrite lookup_insert_ne; [exact Hk|congruence].
  - destruct (decide (k' = k)) as [->|Hne].
    + rewrite lookup_insert_eq. eexists. split; [reflexivity|].
      assert (acc0 = acc) as -> by congruence.
      repeat split. by exists added.
    + rewrite lookup_insert_ne by done. exists acc.
      split; [exact Hk|apply extends_refl].
Qed.

(** X7: no public operation, whether it returns or raises, removes an
    account or changes its holder, date of birth, pin or creation time, and
    the history it leaves starts with the history it found. *)
Theorem accounts_persist w c self self' k acc :
  bank_after (run strptime w c self) = Some self' →
  accounts self !! k = Some acc →
  ∃ acc', accounts self' !! k = Some acc' ∧ extends acc acc'.
Proof.
  intros Hrun%run_updates. revert acc.
  induction Hrun as [self|a b c' Hab _ IH]; intros acc Hk.
  - exists acc. split; [exact Hk|apply extends_refl].
  - destruct (update_persist _ _ _ _ _ Hab Hk) as (acc1 & Hk1 & Hext1).
    destruct (IH _ Hk1) as (acc2 & Hk2 & Hext2).
    exists acc2. split; [exact Hk2|]. eapply extends_trans; eassumption.
Qed.

(** ** Balances and histories *)




Lemma update_floored w a b : update w a b → floored a → floored b.
Proof.
  intros [n name B d cp _ _ HB _|k' acc0 delta added E _ _ Hdown] Hfl k acc;
    cbn [accounts].
  - destruct (decide (n = k)) as [->|Hne].
    + rewrite lookup_insert_eq. intros [= <-]. exact HB.
    + rewrite lookup_insert_ne by done. apply Hfl.
  - destruct (decide (k' = k)) as [->|Hne].
    + rewrite lookup_insert_eq. intros [= <-].
      cbn [post balance with_history with_balance].
      specialize (Hfl _ _ E). destruct (Z.lt_ge_cases delta 0); [auto|lia].
    + rewrite lookup_insert_ne by done. apply Hfl.
Qed.

(** X9: in a ledger reached from Bank() by the public operations, every
    account holds at least MIN_BALANCE (100). *)
Theorem balance_floor_reachable self k acc :
  reachable strptime self →
  accounts self !! k = Some acc →
  MIN_BALANCE ≤ balance acc.
Proof.
  intros Hreach. revert k acc. fold (floored self). revert Hreach.
  apply reachable_invariant.
  - intros k acc E. cbn in E. rewrite lookup_empty in E. discriminate.
  - apply update_floored.
Qed.

(** ** Account numbers and pins of the ledger *)

Lemma account_number_of_well_formed r :
  0 ≤ r ≤ 9999 → well_formed_account_number (account_number_of r).
Proof.
  intros Hr%account_number_checks_in_range. unfold account_number_checks in Hr.
  apply andb_prop in Hr as [Hr _]. apply andb_prop in Hr as [Hlen Hpre].
  split; [exact Hpre|apply Nat.eqb_eq, Hlen].
Qed.

Lemma effective_pin_in_range w caller_pin :
  1000 ≤ randint_pin w ≤ 9999 → 1000 ≤ effective_pin w caller_pin ≤ 9999.
Proof.
  intros Hgen. unfold effective_pin. destruct caller_pin as [p|]; [|exact Hgen].
  destruct (Z.leb_spec 1000 p), (Z.leb_spec p 9999); cbn [andb]; lia.
Qed.

Lemma update_shaped w a b :
  within_contract w → update w a b → shaped a → shaped b.
Proof.
  intros [Hpin Hdraws]
    [n name B d cp _ _ _ (r & Hin & ->)|k' acc0 delta added E _ _ _] Hsh k acc;
    cbn [accounts].
  - destruct (decide (account_number_of r = k)) as [<-|Hne].
    + rewrite lookup_insert_eq. intros [= <-]. split.
      * apply account_number_of_well_formed.
        rewrite Forall_forall in Hdraws. by apply Hdraws.
      * by apply effective_pin_in_range.
    + rewrite lookup_insert_ne by done. apply Hsh.
  - destruct (decide (k' = k)) as [->|Hne].
    + rewrite lookup_insert_eq. intros [= <-]. exact (Hsh _ _ E).
    + rewrite lookup_insert_ne by done. apply Hsh.
Qed.

(** X10: as long as random.randint keeps to its ranges in a call, the call
    leaves a ledger in which every key is "230406" followed by four more
    characters and every pin lies in [1000, 9999], if that was so before. *)
Theorem numbers_and_pins_kept w c self self' :
  within_contract w →
  bank_after (run strptime w c self) = Some self' →
  (∀ k acc, accounts self !! k = Some acc →
            well_formed_account_number k ∧ 1000 ≤ pin acc ≤ 9999) →
  ∀ k acc, accounts self' !! k = Some acc →
           well_formed_account_number k ∧ 1000 ≤ pin acc ≤ 9999.
Proof.
  intros Hw Hrun%run_updates. fold (shaped self) (shaped self').
  revert Hrun. apply updates_preserve. intros a b. by apply update_shaped.
Qed.

(** ** The accounts a call does not name *)

Lemma insert_other (m : gmap string Account) k k' acc :
  k' ≠ k → accounts {| accounts := <[k' := acc]> m |} !! k = m !! k.
Proof. intros H. by apply lookup_insert_ne. Qed.

(** X11: an account that a call does not name is the same after the call
    as before, whether the call returns or raises: a deposit, withdrawal or
    transfer touches only the accounts given to it, and an account creation
    touches no existing account. *)
Theorem other_accounts_untouched w c self self' k acc :
  bank_after (run strptime w c self) = Some self' →
  k ∉ named_accounts c →
  accounts self !! k = Some acc →
  accounts self' !! k = Some acc.
Proof.
  destruct c as [name B dob_s caller_pin|account p amount|account p amount
    |account1 account2 p amount|account p|account p|account p];
    cbn [run named_accounts]; rewrite bank_after_fmap.
  - rewrite account_creation_eq.
    destruct (_ =? MAX_ACCOUNTS); [by intros [= <-]|].
    destruct (strptime dob_s) as [dob_date|]; [|by intros [= <-]].
    destruct (negb _); [by intros [= <-]|].
    destruct (B <? MIN_BALANCE); [by intros [= <-]|].
    destruct (first_free _ _) as [n|] eqn:Hfree; [|discriminate].
    apply first_free_fresh in Hfree.
    intros [= <-] _ Hk. rewrite insert_other; [exact Hk|congruence].
  - rewrite deposit_eq.
    destruct (accounts self !! account) as [acc0|] eqn:E; [|by intros [= <-]].
    case_bool_decide; [by intros [= <-]|].
    destruct (amount <=? 0); [by intros [= <-]|].
    intros [= <-] Hk%not_elem_of_cons Hacc.
    rewrite insert_other; [exact Hacc|]. intros ->. by destruct Hk.
  - rewrite withdrawal_eq.
    destruct (accounts self !! account) as [acc0|] eqn:E; [|by intros [= <-]].
    case_bool_decide; [by intros [= <-]|].
    destruct (amount <=? 0); [by intros [= <-]|].
    destruct (_ <? MIN_BALANCE); [by intros [= <-]|].
    intros [= <-] Hk%not_elem_of_cons Hacc.
    rewrite insert_other; [exact Hacc|]. intros ->. by destruct Hk.
  - rewrite transfer_eq.
    destruct (accounts self !! account1) as [acc1|] eqn:E1;
      [|by intros [= <-]].
    destruct (accounts self !! account2) as [acc2|] eqn:E2;
      [|by intros [= <-]].
    case_bool_decide; [by intros [= <-]|].
    destruct (amount <=? 0); [by intros [= <-]|].
    destruct (_ <? MIN_BALANCE); [by intros [= <-]|].
    intros Hrun [Hk1 [Hk2 _]%not_elem_of_cons]%not_elem_of_cons Hacc.
    revert Hrun. destruct (decide (account1 = account2)) as [<-|Hne].
    + rewrite (transfer_commit_self _ _ _ _ _ E1). intros [= <-].
      rewrite insert_other; [exact Hacc|congruence].
    + rewrite (transfer_commit_distinct _ _ _ _ _ _ _ Hne E1 E2).
      intros [= <-]. rewrite insert_other by congruence.
      rewrite lookup_insert_ne; [exact Hacc|congruence].
  - rewrite display_account_info_unchanged. by intros [= <-].
  - rewrite display_balance_unchanged. by intros [= <-].
  - rewrite display_transaction_history_unchanged. by intros [= <-].
Qed.

(** ** The money in the ledger *)

Lemma balance_fold_comm (j1 j2 : string) (z1 z2 : Account) (y : Z) :
  balance z1 + (balance z2 + y) = balance z2 + (balance z1 + y).
Proof. lia. Qed.

Lemma total_balance_insert_None (m : gmap string Account) k acc :
  m !! k = None →
  total_balance {| accounts := <[k := acc]> m |}
    = total_balance {| accounts := m |} + balance acc.
Proof.
  intros E. unfold total_balance. cbn [accounts].
  rewrite map_fold_insert_L; [lia| |exact E].
  intros. apply balance_fold_comm; assumption.
Qed.

Lemma total_balance_insert_Some (m : gmap string Account) k old acc :
  m !! k = Some old →
  total_balance {| accounts := <[k := acc]> m |}
    = total_balance {| accounts := m |} - balance old + balance acc.
Proof.
  intros E. rewrite <- (insert_delete_eq m k acc).
  rewrite total_balance_insert_None by apply lookup_delete_eq.
  unfold total_balance at 2. cbn [accounts].
  rewrite (map_fold_delete_L _ _ k old m); [|intros; lia|exact E].
  unfold total_balance. cbn [accounts]. lia.
Qed.

Lemma total_balance_eta self :
  total_balance {| accounts := accounts self |} = total_balance self.
Proof. reflexivity. Qed.

(** X12: on integer balances and amounts, a call that returns moves the
    sum of the balances by exactly the opening balance (account creation),
    the amount (deposit), minus the amount (withdrawal), and not at all for a
    transfer or a query: a transfer of an integer amount, to another account
    or to the same one, creates and destroys no money. *)
Theorem total_balance_after w c self r self' :
  run strptime w c self = Returned r self' →
  total_balance self' = total_balance self + total_change c.
Proof.
  destruct c as [name B dob_s caller_pin|account p amount|account p amount
    |account1 account2 p amount|account p|account p|account p];
    cbn [run total_change]; intros (a & Hrun & _)%fmap_Returned;
    revert Hrun.
  - rewrite account_creation_eq.
    destruct (_ =? MAX_ACCOUNTS); [discriminate|].
    destruct (strptime dob_s) as [dob_date|]; [|discriminate].
    destruct (negb _); [discriminate|].
    destruct (B <? MIN_BALANCE); [discriminate|].
    destruct (first_free _ _) as [n|] eqn:Hfree; [|discriminate].
    apply first_free_fresh in Hfree. intros [= <- <-].
    rewrite total_balance_insert_None by done. reflexivity.
  - rewrite deposit_eq.
    destruct (accounts self !! account) as [acc|] eqn:E; [|discriminate].
    case_bool_decide; [discriminate|].
    destruct (amount <=? 0); [discriminate|]. intros [= <- <-].
    rewrite (total_balance_insert_Some _ _ _ _ E), total_balance_eta.
    cbn. lia.
  - rewrite withdrawal_eq.
    destruct (accounts self !! account) as [acc|] eqn:E; [|discriminate].
    case_bool_decide; [discriminate|].
    destruct (amount <=? 0); [discriminate|].
    destruct (_ <? MIN_BALANCE); [discriminate|]. intros [= <- <-].
    rewrite (total_balance_insert_Some _ _ _ _ E), total_balance_eta.
    cbn. lia.
  - rewrite transfer_eq.
    destruct (accounts self !! account1) as [acc1|] eqn:E1; [|discriminate].
    destruct (accounts self !! account2) as [acc2|] eqn:E2; [|discriminate].
    case_bool_decide; [discriminate|].
    destruct (amount <=? 0); [discriminate|].
    destruct (_ <? MIN_BALANCE); [discriminate|].
    destruct (decide (account1 = account2)) as [<-|Hne].
    + rewrite (transfer_commit_self _ _ _ _ _ E1). intros [= <- <-].
      rewrite (total_balance_insert_Some _ _ _ _ E1), total_balance_eta.
      cbn. lia.
    + rewrite (transfer_commit_distinct _ _ _ _ _ _ _ Hne E1 E2).
      intros [= <- <-].
      rewrite (total_balance_insert_Some _ _ acc2)
        by (rewrite lookup_insert_ne by done; exact E2).
      rewrite (total_balance_insert_Some _ _ _ _ E1), total_balance_eta.
      cbn. lia.
  - intros Hrun.
    rewrite (bank_after_Returned _ _ _ _
               (display_account_info_unchanged _ _ _) Hrun). lia.
  - intros Hrun.
    rewrite (bank_after_Returned _ _ _ _
               (display_balance_unchanged _ _ _) Hrun). lia.
  - intros Hrun.
    rewrite (bank_after_Returned _ _ _ _
               (display_transaction_history_unchanged _ _ _) Hrun). lia.
Qed.

(** ** A transfer and the transfer back *)

(** X13: on integer balances and amounts, between two distinct accounts X
    and Y that hold at least 100, a transfer of A from X to Y followed by a
    transfer of A from Y back to X, each with the pin of its source, both
    return; the two balances are what they were, and each history has grown
    by two records, the outgoing and the incoming one in the order of the
    calls. *)
Theorem transfer_and_back w1 w2 X Y pX pY A accX accY self :
  X ≠ Y →
  accounts self !! X = Some accX →
  accounts self !! Y = Some accY →
  pX = pin accX →
  pY = pin accY →
  0 < A →
  MIN_BALANCE ≤ balance accX - A →
  MIN_BALANCE ≤ balance accY →
  ∃ r1 self1 r2 self2 accX2 accY2,
    transfer w1 X Y pX A self = Returned r1 self1 ∧
    transfer w2 Y X pY A self1 = Returned r2 self2 ∧
    accounts self2 !! X = Some accX2 ∧
    accounts self2 !! Y = Some accY2 ∧
    balance accX2 = balance accX ∧
    balance accY2 = balance accY ∧
    transaction_history accX2 =
      transaction_history accX ++
      [transfer_out_txn w1 Y A; transfer_in_txn w2 Y A] ∧
    transaction_history accY2 =
      transaction_history accY ++
      [transfer_in_txn w1 X A; transfer_out_txn w2 X A].
Proof.
  intros Hne EX EY HpX HpY HA HbX HbY.
  rewrite (transfer_passes_validation _ _ _ _ _ _ _ _ EX EY HpX HA HbX).
  rewrite (transfer_commit_distinct _ _ _ _ _ _ _ Hne EX EY).
  eexists _, _, _, _, _, _. split; [reflexivity|].
  erewrite transfer_passes_validation; cycle 1.
  { apply accounts_insert_eq. }
  { cbn [accounts]. rewrite lookup_insert_ne by done. apply lookup_insert_eq. }
  { exact HpY. }
  { exact HA. }
  { cbn. lia. }
  erewrite transfer_commit_distinct; cycle 1.
  { congruence. }
  { apply accounts_insert_eq. }
  { cbn [accounts]. rewrite lookup_insert_ne by done. apply lookup_insert_eq. }
  split; [reflexivity|]. cbn [accounts].
  split; [apply lookup_insert_eq|].
  split; [rewrite lookup_insert_ne by done; apply lookup_insert_eq|].
  split; [cbn; lia|]. split; [cbn; lia|].
  split; cbn; by rewrite <- app_assoc.
Qed.

(** ** The order of the checks of [account_creation] *)

(** X14: account_creation checks the account limit, then the format of
    the date of birth, then the age, then the opening balance; on every input
    the exception it raises is the one of the first of these checks that
    fails, and it raises none when all pass. *)
Theorem account_creation_check_order w name B dob caller_pin self :
  raised (account_creation strptime w name B dob caller_pin self) =
    creation_violation
      (Z.of_nat (size (accounts self)) =? MAX_ACCOUNTS)
      (bool_decide (is_Some (strptime dob)))
      (match strptime dob with
       | Some dob_date =>
           (MIN_AGE <=? age_on (today w) dob_date)
           && (age_on (today w) dob_date <=? MAX_AGE)
       | None => false
       end)
      (MIN_BALANCE <=? B).
Proof.
  rewrite account_creation_eq. unfold creation_violation.
  destruct (_ =? MAX_ACCOUNTS); [reflexivity|].
  destruct (strptime dob) as [dob_date|]; [|reflexivity].
  rewrite bool_decide_eq_true_2 by eauto. cbn [negb].
  destruct (negb _); [reflexivity|].
  rewrite negb_leb_MIN_BALANCE.
  destruct (B <? MIN_BALANCE); [reflexivity|].
  destruct (first_free _ _); reflexivity.
Qed.

(** ** The tables *)

Lemma foldl_add_row (h : list Transaction) (t : PrettyTable) :
  foldl (λ table transaction,
           add_row [ CStr (txn_type transaction);
                     CStr (str (txn_amount transaction));
                     CStr (strftime (txn_time transaction));
                     CStr (txn_note transaction) ] table) t h
  = {| field_names := field_names t; rows := rows t ++ (row_of <$> h) |}.
Proof.
  revert t. induction h as [|x h IH]; intros t; cbn [foldl fmap list_fmap].
  - rewrite app_nil_r. by destruct t.
  - rewrite IH. cbn [add_row field_names rows].
    rewrite <- app_assoc. reflexivity.
Qed.

(** X15: with the pin of the account, display_transaction_history
    returns a table with the four columns Type, Amount, Time and Note and
    exactly one row per record of the history, in the order of the history
    (oldest first), each row showing the type, the amount, the formatted time
    and the note of its record; the ledger is untouched. *)
Theorem display_transaction_history_rows account p acc self :
  accounts self !! account = Some acc →
  p = pin acc →
  display_transaction_history account p self =
    Returned
      {| field_names := ["Type"; "Amount (₹)"; "Time"; "Note"];
         rows := row_of <$> transaction_history acc |}
      self.
Proof.
  intros E Hp. rewrite display_transaction_history_eq, E.
  rewrite bool_decide_eq_false_2 by (intros Hbad; exact (Hbad Hp)).
  rewrite foldl_add_row. reflexivity.
Qed.

(** X16: the balance a deposit or a withdrawal reports is the balance
    stored: display_balance, called next with the same pin, returns it. *)
Theorem reported_balance_is_stored w account p amount self r self' :
  deposit w account p amount self = Returned r self' ∨
  withdrawal w account p amount self = Returned r self' →
  (reply_balance <$> display_balance account p) self' =
    Returned (reply_balance r) self'.
Proof.
  rewrite deposit_eq, withdrawal_eq, run_fmap, display_balance_eq.
  destruct (accounts self !! account) as [acc|] eqn:E;
    [|intros [|]; discriminate].
  case_bool_decide as Hp; [intros [|]; discriminate|].
  destruct (amount <=? 0); [intros [|]; discriminate|].
  intros [Hrun|Hrun]; revert Hrun.
  - intros [= <- <-]. cbn [accounts]. rewrite lookup_insert_eq.
    cbn [pin with_history with_balance].
    rewrite bool_decide_eq_false_2 by (intros Hbad; exact (Hbad Hp)).
    reflexivity.
  - destruct (_ <? MIN_BALANCE); [discriminate|].
    intros [= <- <-]. cbn [accounts]. rewrite lookup_insert_eq.
    cbn [pin with_history with_balance].
    rewrite bool_decide_eq_false_2 by (intros Hbad; exact (Hbad Hp)).
    reflexivity.
Qed.

(** ** The helpers called on their own *)

(** X17: validate_pin, validate_balance and transaction_log subscript the
    ledger without checking the key: on an account number that is not in the
    ledger each raises KeyError and leaves the ledger as it was, whereas
    validate_account raises AccountNotFound. *)
Theorem helpers_on_unknown_account account p amount type_of_txn time note self :
  accounts self !! account = None →
  validate_pin account p self = Raised (KeyError account) self ∧
  validate_balance account amount self = Raised (KeyError account) self ∧
  transaction_log account type_of_txn amount time note self
    = Raised (KeyError account) self ∧
  validate_account account self
    = Raised (AccountNotFound "Account not found") self.
Proof.
  intros E. rewrite validate_account_eq, E.
  unfold validate_pin, validate_balance, transaction_log.
  rewrite !run_bind. unfold getitem. rewrite E. done.
Qed.

(** X18: transaction_log, called on an account of the ledger, appends one
    record with the given type, amount, time and note at the end of that
    account's history and changes nothing else: not its balance, not its pin,
    and no other account. *)
Theorem transaction_log_appends account type_of_txn amount time note acc self :
  accounts self !! account = Some acc →
  ∃ self' acc',
    transaction_log account type_of_txn amount time note self
      = Returned () self' ∧
    accounts self' !! account = Some acc' ∧
    transaction_history acc' =
      transaction_history acc ++
      [ {| txn_type := type_of_txn; txn_amount := amount;
           txn_time := time; txn_note := note |} ] ∧
    balance acc' = balance acc ∧
    pin acc' = pin acc ∧
    ∀ k, k ≠ account → accounts self' !! k = accounts self !! k.
Proof.
  intros E. rewrite (transaction_log_eq _ _ _ _ _ _ _ E).
  eexists _, _. split; [reflexivity|]. cbn [accounts].
  split; [apply lookup_insert_eq|]. repeat split.
  intros k Hk. by rewrite lookup_insert_ne.
Qed.

(** ** When money leaves an account *)

(** X19: on integer balances and amounts, a withdrawal returns exactly
    when the account exists, the pin is its pin, the amount is positive and
    the balance less the amount is at least MIN_BALANCE (the guard of
    validate_balance does not fire); a transfer returns exactly when both
    accounts exist, the pin is the pin of the source, the amount is positive
    and the balance of the source less the amount is at least MIN_BALANCE. *)
Theorem money_leaves_iff w account account2 p amount self :
  ((∃ r self', withdrawal w account p amount self = Returned r self')
   ↔ ∃ acc, accounts self !! account = Some acc ∧ p = pin acc ∧
            0 < amount ∧ MIN_BALANCE ≤ balance acc - amount)
  ∧ ((∃ r self', transfer w account account2 p amount self = Returned r self')
     ↔ ∃ acc, accounts self !! account = Some acc ∧
              is_Some (accounts self !! account2) ∧ p = pin acc ∧
              0 < amount ∧ MIN_BALANCE ≤ balance acc - amount).
Proof.
  rewrite withdrawal_eq, transfer_eq.
  destruct (accounts self !! account) as [acc|] eqn:E.
  2: { split; (split; [intros (? & ? & [=])|intros (? & [=] & _)]). }
  split.
  - case_bool_decide as Hp.
    { split; [intros (? & ? & [=])|]. intros (? & [= <-] & ? & _). done. }
    destruct (Z.leb_spec amount 0).
    { split; [intros (? & ? & [=])|]. intros (? & [= <-] & _ & ? & _). lia. }
    destruct (Z.ltb_spec (balance acc - amount) MIN_BALANCE).
    { split; [intros (? & ? & [=])|]. intros (? & [= <-] & _ & _ & ?). lia. }
    split; [|eauto]. intros _. exists acc. repeat split; done.
  - destruct (accounts self !! account2) as [acc2|] eqn:E2.
    2: { split; [intros (? & ? & [=])|]. intros (? & _ & [? [=]] & _). }
    case_bool_decide as Hp.
    { split; [intros (? & ? & [=])|]. intros (? & [= <-] & _ & ? & _). done. }
    destruct (Z.leb_spec amount 0).
    { split; [intros (? & ? & [=])|].
      intros (? & [= <-] & _ & _ & ? & _). lia. }
    destruct (Z.ltb_spec (balance acc - amount) MIN_BALANCE).
    { split; [intros (? & ? & [=])|].
      intros (? & [= <-] & _ & _ & _ & ?). lia. }
    split.
    + intros _. exists acc. repeat split; eauto.
    + intros _. exact (transfer_commit_returns w _ _ amount _ _ _ E E2).
Qed.

(** ** When an account is created *)

Lemma first_free_is_Some (m : gmap string Account) draws :
  (∃ r, r ∈ draws ∧ m !! account_number_of r = None) ↔
  is_Some (first_free m draws).
Proof.
  induction draws as [|r draws IH]; cbn [first_free].
  - split; [intros (r & []%elem_of_nil & _)|intros [? [=]]].
  - fold (account_number_of r).
    destruct (m !! account_number_of r) as [acc|] eqn:E.
    + rewrite <- IH. split.
      * intros (r' & [->|Hin]%elem_of_cons & Hfree); [congruence|eauto].
      * intros (r' & Hin & Hfree). exists r'. split; [by right|done].
    + split; [eauto|]. intros _. exists r. split; [by left|done].
Qed.

(** X20: account_creation returns exactly when the ledger is not at the
    account limit, the date of birth parses, the age is in [18, 80], the
    opening balance is at least 100 and one of the draws gives a number that
    is not yet a key. *)
Theorem account_creation_returns_iff w name B dob caller_pin self :
  (∃ r self',
     account_creation strptime w name B dob caller_pin self = Returned r self')
  ↔ Z.of_nat (size (accounts self)) ≠ MAX_ACCOUNTS ∧
    (∃ dob_date,
       strptime dob = Some dob_date ∧
       MIN_AGE ≤ age_on (today w) dob_date ≤ MAX_AGE) ∧
    MIN_BALANCE ≤ B ∧
    ∃ d, d ∈ randint_suffix w ∧ accounts self !! account_number_of d = None.
Proof.
  rewrite account_creation_eq, first_free_is_Some.
  destruct (Z.eqb_spec (Z.of_nat (size (accounts self))) MAX_ACCOUNTS).
  { split; [intros (? & ? & [=])|intros [? _]; done]. }
  destruct (strptime dob) as [dob_date|].
  2: { split; [intros (? & ? & [=])|intros (_ & (? & [=] & _) & _)]. }
  destruct (Z.leb_spec MIN_AGE (age_on (today w) dob_date)),
    (Z.leb_spec (age_on (today w) dob_date) MAX_AGE); cbn [andb negb].
  2-4: split; [intros (? & ? & [=])|intros (_ & (? & [= <-] & ?) & _); lia].
  destruct (Z.ltb_spec B MIN_BALANCE).
  { split; [intros (? & ? & [=])|intros (_ & _ & ? & _); lia]. }
  destruct (first_free _ _) as [account_number|].
  - split; [|eauto]. intros _. repeat split; eauto.
  - split; [intros (? & ? & [=])|intros (_ & _ & _ & [? [=]])].
Qed.

(** ** The checks of the queries *)

(** X21: each of the three queries raises AccountNotFound for an account
    number that is not in the ledger, InvalidPinError for a pin that is not
    the account's, and nothing otherwise; the existence check comes first. *)
Theorem query_validation_order account p self :
  let expected :=
    error_of_check <$>
      first_violation (known self account) (pin_matches self account p)
        true true in
  raised (display_balance account p self) = expected ∧
  raised (display_account_info account p self) = expected ∧
  raised (display_transaction_history account p self) = expected.
Proof.
  cbn zeta. unfold first_violation, pin_matches.
  rewrite display_balance_eq, display_account_info_eq,
    display_transaction_history_eq.
  destruct (accounts self !! account) as [acc|] eqn:E.
  2: { rewrite (known_None _ _ E). done. }
  rewrite (known_Some _ _ _ E), negb_bool_decide_ne. cbn [negb].
  case_bool_decide; done.
Qed.

(** ** The demonstration script *)

(** X22: bank_output.py, run on days when Alice (born 1995-05-12) and Bob
    (born 1988-09-23) are between 18 and 80, with a second series of draws
    that contains a number other than Alice's, prints a table of four columns
    with a single row: Deposit, 500, the time of Alice's creation and
    "Opening balance"; the ledger then holds two accounts. *)
Theorem bank_output_table w1 w2 r1 rest1 :
  strptime "1995-05-12" = Some (Date 1995 5 12) →
  strptime "1988-09-23" = Some (Date 1988 9 23) →
  MIN_AGE ≤ age_on (today w1) (Date 1995 5 12) ≤ MAX_AGE →
  MIN_AGE ≤ age_on (today w2) (Date 1988 9 23) ≤ MAX_AGE →
  randint_suffix w1 = r1 :: rest1 →
  (∃ r2, r2 ∈ randint_suffix w2 ∧ account_number_of r2 ≠ account_number_of r1) →
  ∃ self',
    bank_output strptime w1 w2 Bank_init =
      Returned
        {| field_names := ["Type"; "Amount (₹)"; "Time"; "Note"];
           rows := [ [ CStr "Deposit"; CStr "500"; CStr (strftime (now w1));
                       CStr "Opening balance" ] ] |}
        self' ∧
    size (accounts self') = 2%nat.
Proof.
  intros Hdob1 Hdob2 Hage1 Hage2 Hdraws1 (r2 & Hin2 & Hne2).
  unfold bank_output.
  destruct (account_creation_returns strptime w1 "Alice" 500 "1995-05-12"
              (Some 1234) Bank_init (Date 1995 5 12) (account_number_of r1))
    as (a1 & s1 & Hrun1 & Hn1); [done|exact Hdob1|exact Hage1|done| |].
  { rewrite Hdraws1. reflexivity. }
  rewrite run_bind, Hrun1.
  revert Hrun1. rewrite account_creation_eq, Hdob1, Hdraws1.
  cbn [first_free accounts Bank_init]. fold (account_number_of r1).
  rewrite lookup_empty.
  destruct (_ =? MAX_ACCOUNTS); [discriminate|].
  destruct (negb _); [discriminate|].
  destruct (500 <? MIN_BALANCE); [discriminate|].
  intros [= <- <-]. cbn [created_account_number created_pin].
  assert (Hfree2 : is_Some (first_free (<[account_number_of r1 :=
                     opening_account w1 "Alice" 500 (Date 1995 5 12)
                       (Some 1234)]> ∅) (randint_suffix w2))).
  { apply first_free_is_Some. exists r2. split; [exact Hin2|].
    rewrite lookup_insert_ne by done. apply lookup_empty. }
  destruct Hfree2 as [n2 Hfree2].
  pose proof (first_free_fresh _ _ _ Hfree2) as Hfresh2.
  assert (Hne : n2 ≠ account_number_of r1).
  { intros ->. rewrite lookup_insert_eq in Hfresh2. discriminate. }
  rewrite run_bind, account_creation_eq, Hdob2. cbn [accounts].
  rewrite Hfree2, map_size_insert_None, map_size_empty by apply lookup_empty.
  destruct (Z.leb_spec MIN_AGE (age_on (today w2) (Date 1988 9 23))); [|lia].
  destruct (Z.leb_spec (age_on (today w2) (Date 1988 9 23)) MAX_AGE); [|lia].
  change (Z.of_nat 1 =? MAX_ACCOUNTS) with false.
  change (1000 <? MIN_BALANCE) with false.
  cbn [negb andb].
  eexists. split.
  - erewrite display_transaction_history_eq. cbn [accounts].
    rewrite lookup_insert_ne by done. rewrite lookup_insert_eq.
    reflexivity.
  - cbn [accounts]. rewrite map_size_insert_None.
    + by rewrite map_size_insert_None, map_size_empty by apply lookup_empty.
    + rewrite lookup_insert_ne by done. apply lookup_empty.
Qed.

(** ** The first record of a history *)

Lemma update_opened w a b : update w a b → opened a → opened b.
Proof.
  intros [n name B d cp _ _ HB _|k' acc0 delta added E _ _ _] Hop k acc;
    cbn [accounts].
  - destruct (decide (n = k)) as [->|Hne].
    + rewrite lookup_insert_eq. intros [= <-]. exists B, []. by split.
    + rewrite lookup_insert_ne by done. apply Hop.
  - destruct (decide (k' = k)) as [->|Hne].
    + rewrite lookup_insert_eq. intros [= <-].
      destruct (Hop _ _ E) as (B & later & HB & Hh).
      exists B, (later ++ added). split; [exact HB|].
      cbn [post transaction_history creation_time with_history with_balance].
      rewrite Hh. reflexivity.
    + rewrite lookup_insert_ne by done. apply Hop.
Qed.

(** X23: in a ledger reached from Bank() by the public operations, the
    history of every account is not empty and starts with the record written
    at creation: a Deposit of at least 100, noted "Opening balance", whose
    time is the creation time of the account. *)
Theorem history_starts_with_opening self k acc :
  reachable strptime self →
  accounts self !! k = Some acc →
  ∃ B later,
    MIN_BALANCE ≤ B ∧
    transaction_history acc =
      {| txn_type := "Deposit"; txn_amount := B;
         txn_time := creation_time acc; txn_note := "Opening balance" |}
      :: later.
Proof.
  intros Hreach. revert k acc. fold (opened self). revert Hreach.
  apply reachable_invariant.
  - intros k acc E. cbn in E. rewrite lookup_empty in E. discriminate.
  - apply update_opened.
Qed.

End Further.

(** * The further properties at work on the small ledger *)

Lemma account_number_format_witness :
  0 ≤ 42 ≤ 9999 ∧
  well_formed_account_number (account_number_of 42) ∧
  draw_of (account_number_of 42) = Some 42.
Proof.
  assert (H : 0 ≤ 42 ≤ 9999) by lia.
  exact (conj H (account_number_format 42 H)).
Defined.

Lemma account_number_of_inj_witness :
  0 ≤ 7 ≤ 9999 ∧
  account_number_of 7 = account_number_of (3 + 4) ∧
  7 = 3 + 4.
Proof.
  assert (H1 : 0 ≤ 7 ≤ 9999) by lia.
  assert (H2 : 0 ≤ 3 + 4 ≤ 9999) by lia.
  assert (E : account_number_of 7 = account_number_of (3 + 4)) by reflexivity.
  exact (conj H1 (conj E (account_number_of_inj 7 (3 + 4) H1 H2 E))).
Defined.

Lemma generate_account_number_result_witness :
  generate_account_number [7; 7; 42] alice_bank = Returned bob alice_bank ∧
  accounts alice_bank !! bob = None ∧
  ∃ taken r rest,
    [7; 7; 42] = taken ++ r :: rest ∧
    bob = account_number_of r ∧
    Forall (λ r', is_Some (accounts alice_bank !! account_number_of r')) taken.
Proof.
  assert (Hrun : generate_account_number [7; 7; 42] alice_bank
                 = Returned bob alice_bank) by (vm_compute; reflexivity).
  split; [exact Hrun|].
  exact (proj2 (generate_account_number_result [7; 7; 42] alice_bank bob
                  alice_bank Hrun)).
Defined.

Lemma account_creation_adds_one_witness :
  account_creation strptime_ymd demo_world "Alice" 500 "1995-05-12"
    (Some 1234) Bank_init = Returned alice_created alice_bank ∧
  size (accounts alice_bank) = S (size (accounts Bank_init)) ∧
  is_Some (accounts alice_bank !! created_account_number alice_created) ∧
  ∀ k acc, accounts Bank_init !! k = Some acc →
           accounts alice_bank !! k = Some acc.
Proof.
  assert (Hrun : account_creation strptime_ymd demo_world "Alice" 500
                   "1995-05-12" (Some 1234) Bank_init
                 = Returned alice_created alice_bank)
    by (vm_compute; reflexivity).
  exact (conj Hrun
           (account_creation_adds_one strptime_ymd demo_world "Alice" 500
              "1995-05-12" (Some 1234) Bank_init alice_created alice_bank
              Hrun)).
Defined.

Lemma account_limit_kept_witness :
  reachable strptime_ymd demo_bank ∧
  Z.of_nat (size (accounts demo_bank)) ≤ MAX_ACCOUNTS.
Proof.
  exact (conj demo_bank_reachable
           (account_limit_kept strptime_ymd demo_bank demo_bank_reachable)).
Defined.

Lemma accounts_persist_witness :
  ∃ self',
    bank_after (run strptime_ymd later_world (call_transfer alice bob 1234 50)
                  demo_bank) = Some self' ∧
    accounts demo_bank !! bob = Some bob_account ∧
    ∃ acc', accounts self' !! bob = Some acc' ∧ extends bob_account acc'.
Proof.
  eexists.
  assert (Hrun : bank_after (run strptime_ymd later_world
                               (call_transfer alice bob 1234 50) demo_bank)
                 = Some _) by (vm_compute; reflexivity).
  exact (conj Hrun
           (conj demo_bank_bob
              (accounts_persist strptime_ymd later_world
                 (call_transfer alice bob 1234 50) demo_bank _ bob
                 bob_account Hrun demo_bank_bob))).
Defined.


Lemma balance_floor_reachable_witness :
  reachable strptime_ymd demo_bank ∧
  accounts demo_bank !! bob = Some bob_account ∧
  MIN_BALANCE ≤ balance bob_account.
Proof.
  exact (conj demo_bank_reachable
           (conj demo_bank_bob
              (balance_floor_reachable strptime_ymd demo_bank bob
                 bob_account demo_bank_reachable demo_bank_bob))).
Defined.

Lemma numbers_and_pins_kept_witness :
  within_contract demo_world ∧
  bank_after (run strptime_ymd demo_world
                (call_account_creation "Alice" 500 "1995-05-12" (Some 1234))
                Bank_init) = Some alice_bank ∧
  (∀ k acc, accounts Bank_init !! k = Some acc →
            well_formed_account_number k ∧ 1000 ≤ pin acc ≤ 9999) ∧
  ∀ k acc, accounts alice_bank !! k = Some acc →
           well_formed_account_number k ∧ 1000 ≤ pin acc ≤ 9999.
Proof.
  assert (Hw : within_contract demo_world).
  { split; [vm_compute; split; discriminate|].
    repeat constructor; vm_compute; discriminate. }
  assert (Hrun : bank_after (run strptime_ymd demo_world
                    (call_account_creation "Alice" 500 "1995-05-12"
                       (Some 1234)) Bank_init) = Some alice_bank)
    by (vm_compute; reflexivity).
  assert (Hbefore : ∀ k acc, accounts Bank_init !! k = Some acc →
            well_formed_account_number k ∧ 1000 ≤ pin acc ≤ 9999).
  { intros k acc E. cbn in E. rewrite lookup_empty in E. discriminate. }
  exact (conj Hw (conj Hrun (conj Hbefore
           (numbers_and_pins_kept strptime_ymd demo_world _ Bank_init
              alice_bank Hw Hrun Hbefore)))).
Defined.

Lemma other_accounts_untouched_witness :
  ∃ self',
    bank_after (run strptime_ymd later_world (call_deposit alice 1234 50)
                  demo_bank) = Some self' ∧
    (bob ∉ named_accounts (call_deposit alice 1234 50)) ∧
    accounts demo_bank !! bob = Some bob_account ∧
    accounts self' !! bob = Some bob_account.
Proof.
  eexists.
  assert (Hrun : bank_after (run strptime_ymd later_world
                               (call_deposit alice 1234 50) demo_bank)
                 = Some _) by (vm_compute; reflexivity).
  assert (Hk : bob ∉ named_accounts (call_deposit alice 1234 50)).
  { cbn. intros [E|[]%elem_of_nil]%elem_of_cons. vm_compute in E.
    discriminate. }
  exact (conj Hrun (conj Hk (conj demo_bank_bob
           (other_accounts_untouched strptime_ymd later_world
              (call_deposit alice 1234 50) demo_bank _ bob bob_account
              Hrun Hk demo_bank_bob)))).
Defined.

Lemma total_balance_after_witness :
  ∃ r self',
    run strptime_ymd later_world (call_transfer alice bob 1234 50) demo_bank
      = Returned r self' ∧
    total_balance self' =
      total_balance demo_bank + total_change (call_transfer alice bob 1234 50).
Proof.
  eexists _, _.
  assert (Hrun : run strptime_ymd later_world
                   (call_transfer alice bob 1234 50) demo_bank
                 = Returned _ _) by (vm_compute; reflexivity).
  exact (conj Hrun
           (total_balance_after strptime_ymd later_world
              (call_transfer alice bob 1234 50) demo_bank _ _ Hrun)).
Defined.

Lemma transfer_and_back_witness :
  alice ≠ bob ∧
  accounts demo_bank !! alice = Some alice_account ∧
  accounts demo_bank !! bob = Some bob_account ∧
  1234 = pin alice_account ∧
  4321 = pin bob_account ∧
  0 < 50 ∧
  MIN_BALANCE ≤ balance alice_account - 50 ∧
  MIN_BALANCE ≤ balance bob_account ∧
  ∃ r1 self1 r2 self2 accX2 accY2,
    transfer demo_world alice bob 1234 50 demo_bank = Returned r1 self1 ∧
    transfer later_world bob alice 4321 50 self1 = Returned r2 self2 ∧
    accounts self2 !! alice = Some accX2 ∧
    accounts self2 !! bob = Some accY2 ∧
    balance accX2 = balance alice_account ∧
    balance accY2 = balance bob_account ∧
    transaction_history accX2 =
      transaction_history alice_account ++
      [transfer_out_txn demo_world bob 50; transfer_in_txn later_world bob 50] ∧
    transaction_history accY2 =
      transaction_history bob_account ++
      [transfer_in_txn demo_world alice 50;
       transfer_out_txn later_world alice 50].
Proof.
  assert (Hne : alice ≠ bob) by (vm_compute; discriminate).
  assert (Hpos : 0 < 50) by lia.
  assert (HbX : MIN_BALANCE ≤ balance alice_account - 50)
    by (vm_compute; discriminate).
  assert (HbY : MIN_BALANCE ≤ balance bob_account)
    by (vm_compute; discriminate).
  exact (conj Hne (conj demo_bank_alice (conj demo_bank_bob
           (conj eq_refl (conj eq_refl (conj Hpos (conj HbX (conj HbY
              (transfer_and_back demo_world later_world alice bob 1234 4321
                 50 alice_account bob_account demo_bank Hne demo_bank_alice
                 demo_bank_bob eq_refl eq_refl Hpos HbX HbY))))))))).
Defined.

Lemma display_transaction_history_rows_witness :
  accounts demo_bank !! alice = Some alice_account ∧
  1234 = pin alice_account ∧
  display_transaction_history alice 1234 demo_bank =
    Returned
      {| field_names := ["Type"; "Amount (₹)"; "Time"; "Note"];
         rows := row_of <$> transaction_history alice_account |}
      demo_bank.
Proof.
  exact (conj demo_bank_alice
           (conj eq_refl
              (display_transaction_history_rows alice 1234 alice_account
                 demo_bank demo_bank_alice eq_refl))).
Defined.

Lemma reported_balance_is_stored_witness :
  ∃ r self',
    (deposit later_world alice 1234 50 demo_bank = Returned r self' ∨
     withdrawal later_world alice 1234 50 demo_bank = Returned r self') ∧
    (reply_balance <$> display_balance alice 1234) self' =
      Returned (reply_balance r) self'.
Proof.
  eexists _, _.
  assert (Hrun : deposit later_world alice 1234 50 demo_bank = Returned _ _)
    by (vm_compute; reflexivity).
  exact (conj (or_introl Hrun)
           (reported_balance_is_stored later_world alice 1234 50 demo_bank
              _ _ (or_introl Hrun))).
Defined.

Lemma helpers_on_unknown_account_witness :
  accounts demo_bank !! "2304069999" = None ∧
  validate_pin "2304069999" 1234 demo_bank
    = Raised (KeyError "2304069999") demo_bank ∧
  validate_balance "2304069999" 50 demo_bank
    = Raised (KeyError "2304069999") demo_bank ∧
  transaction_log "2304069999" "Deposit" 50 (now later_world) "Cash deposit"
    demo_bank = Raised (KeyError "2304069999") demo_bank ∧
  validate_account "2304069999" demo_bank
    = Raised (AccountNotFound "Account not found") demo_bank.
Proof.
  assert (E : accounts demo_bank !! "2304069999" = None)
    by (vm_compute; reflexivity).
  exact (conj E
           (helpers_on_unknown_account "2304069999" 1234 50 "Deposit"
              (now later_world) "Cash deposit" demo_bank E)).
Defined.

Lemma transaction_log_appends_witness :
  accounts demo_bank !! alice = Some alice_account ∧
  ∃ self' acc',
    transaction_log alice "Refund" (-5) (now later_world) "" demo_bank
      = Returned () self' ∧
    accounts self' !! alice = Some acc' ∧
    transaction_history acc' =
      transaction_history alice_account ++
      [ {| txn_type := "Refund"; txn_amount := -5;
           txn_time := now later_world; txn_note := "" |} ] ∧
    balance acc' = balance alice_account ∧
    pin acc' = pin alice_account ∧
    ∀ k, k ≠ alice → accounts self' !! k = accounts demo_bank !! k.
Proof.
  exact (conj demo_bank_alice
           (transaction_log_appends alice "Refund" (-5) (now later_world) ""
              alice_account demo_bank demo_bank_alice)).
Defined.

Lemma bank_output_table_witness :
  strptime_ymd "1995-05-12" = Some (Date 1995 5 12) ∧
  strptime_ymd "1988-09-23" = Some (Date 1988 9 23) ∧
  MIN_AGE ≤ age_on (today demo_world) (Date 1995 5 12) ≤ MAX_AGE ∧
  MIN_AGE ≤ age_on (today later_world) (Date 1988 9 23) ≤ MAX_AGE ∧
  randint_suffix demo_world = 7 :: [7; 42] ∧
  (∃ r2, r2 ∈ randint_suffix later_world ∧
         account_number_of r2 ≠ account_number_of 7) ∧
  ∃ self',
    bank_output strptime_ymd demo_world later_world Bank_init =
      Returned
        {| field_names := ["Type"; "Amount (₹)"; "Time"; "Note"];
           rows := [ [ CStr "Deposit"; CStr "500";
                       CStr (strftime (now demo_world));
                       CStr "Opening balance" ] ] |}
        self' ∧
    size (accounts self') = 2%nat.
Proof.
  assert (Hage1 : MIN_AGE ≤ age_on (today demo_world) (Date 1995 5 12)
                  ≤ MAX_AGE) by (vm_compute; split; discriminate).
  assert (Hage2 : MIN_AGE ≤ age_on (today later_world) (Date 1988 9 23)
                  ≤ MAX_AGE) by (vm_compute; split; discriminate).
  assert (Hdraw2 : ∃ r2, r2 ∈ randint_suffix later_world ∧
                         account_number_of r2 ≠ account_number_of 7).
  { exists 99. split; [by left|]. vm_compute. discriminate. }
  exact (conj eq_refl (conj eq_refl (conj Hage1 (conj Hage2 (conj eq_refl
           (conj Hdraw2
              (bank_output_table strptime_ymd demo_world later_world 7
                 [7; 42] eq_refl eq_refl Hage1 Hage2 eq_refl Hdraw2))))))).
Defined.

Lemma history_starts_with_opening_witness :
  reachable strptime_ymd demo_bank ∧
  accounts demo_bank !! bob = Some bob_account ∧
  ∃ B later,
    MIN_BALANCE ≤ B ∧
    transaction_history bob_account =
      {| txn_type := "Deposit"; txn_amount := B;
         txn_time := creation_time bob_account;
         txn_note := "Opening balance" |} :: later.
Proof.
  exact (conj demo_bank_reachable
           (conj demo_bank_bob
              (history_starts_with_opening strptime_ymd demo_bank bob
                 bob_account demo_bank_reachable demo_bank_bob))).
Defined.

(** * Where float amounts part from integer amounts *)

(** C6 as stated fails on float amounts: on a balance of 100.0, a deposit
    of 28.2 returns and stores 128.19999999999999, and the withdrawal of 28.2
    that follows computes 99.99999999999999, below 100, and raises
    InsufficientBalanceError. *)
Lemma deposit_then_withdrawal_float_counterexample :
  let B := 100%float in
  let D := Decimal.f28_2 in
  PrimFloat.leb 100%float B = true ∧
  PrimFloat.ltb 0%float D = true ∧
  ∃ acc r1 self1 msg,
    Decimal.accounts (Decimal.opened_with B) !! alice = Some acc ∧
    Decimal.balance acc = B ∧
    Decimal.pin acc = 1234 ∧
    Decimal.deposit demo_world alice 1234 D (Decimal.opened_with B)
      = Decimal.Returned r1 self1 ∧
    Decimal.withdrawal later_world alice 1234 D self1
      = Decimal.Raised (InsufficientBalanceError msg) self1.
Proof.
  cbn zeta. split; [vm_compute; reflexivity|].
  split; [vm_compute; reflexivity|].
  eexists _, _, _, _.
  split; [vm_compute; reflexivity|].
  split; [reflexivity|]. split; [reflexivity|].
  split; [vm_compute; reflexivity|].
  vm_compute. reflexivity.
Qed.

(** C9 as stated fails on float amounts: on a balance of 200.1, a transfer
    of 8.11 from the account to itself passes every check (200.1 - 8.11 is at
    least 100) and returns, but the balance it leaves and reports is
    200.10000000000002, above 200.1. *)
Lemma transfer_to_self_float_counterexample :
  let B := Decimal.f200_1 in
  let A := Decimal.f8_11 in
  PrimFloat.ltb 0%float A = true ∧
  PrimFloat.leb 100%float (PrimFloat.sub B A) = true ∧
  ∃ acc r self' acc',
    Decimal.accounts (Decimal.opened_with B) !! alice = Some acc ∧
    Decimal.balance acc = B ∧
    Decimal.pin acc = 1234 ∧
    Decimal.transfer demo_world alice alice 1234 A (Decimal.opened_with B)
      = Decimal.Returned r self' ∧
    Decimal.accounts self' !! alice = Some acc' ∧
    Decimal.balance acc' ≠ B ∧
    PrimFloat.ltb B (Decimal.balance acc') = true ∧
    Decimal.balance_from r = Decimal.balance acc' ∧
    Decimal.balance_to r = Decimal.balance acc'.
Proof.
  cbn zeta. split; [vm_compute; reflexivity|].
  split; [vm_compute; reflexivity|].
  eexists _, _, _, _.
  split; [vm_compute; reflexivity|].
  split; [reflexivity|]. split; [reflexivity|].
  split; [vm_compute; reflexivity|].
  split; [vm_compute; reflexivity|].
  split.
  { intros H.
    assert (E : PrimFloat.ltb Decimal.f200_1 Decimal.f200_1 = true).
    { rewrite <- H at 2. vm_compute. reflexivity. }
    vm_compute in E. discriminate. }
  split; [vm_compute; reflexivity|].
  split; vm_compute; reflexivity.
Qed.
